(** * Arctis Nova Pro Wireless driver: a shallow embedding

    Source: [src/arctis_chatmix/devices/device_arctis_nova_pro_wireless.py]
    (class [ArctisNovaProWirelessDevice]) and, for the attribute names of the
    settings classes, [src/arctis_manager/settings_window.py].

    Conventions of the embedding.
    - A Python [int] is a [Z]; a Python [float] is a primitive binary64
      [float], so [/] and [round] are the IEEE operations CPython performs.
    - A report ([data: list[int]]) is a [list Z].
    - A method is a function of [self] that returns the value it returns (or
      the exception it raises) together with [self] as it is afterwards.
    - USB traffic and log output are recorded as lists of events. *)

From Stdlib Require Import ZArith List String Ascii HexString Bool Lia Floats.
Import ListNotations.

Open Scope string_scope.
Open Scope list_scope.
Open Scope Z_scope.

(** ** Python numbers *)

Module Py.

(** A value of Python's numeric tower as it occurs in the driver. *)
Inductive number : Type :=
| Int (z : Z)
| Float (f : float).

(** [float(z)]: the binary64 nearest to the integer [z] (infinite beyond
    the binary64 range, where CPython raises [OverflowError]). *)
Definition float_of_int (z : Z) : float :=
  SF2Prim (binary_normalize prec emax z 0 false).

(** [a / b] on two integers.  CPython divides the two operands as doubles
    whenever both fit in 53 bits; bytes of a USB report always do. *)
Definition truediv (a b : Z) : float :=
  (float_of_int a / float_of_int b)%float.

(** [float(x)] on a number. *)
Definition as_float (x : number) : float :=
  match x with
  | Int z => float_of_int z
  | Float f => f
  end.

(** The integer nearest to [num / den] ([den > 0]), ties going to the even
    neighbour. *)
Definition round_half_even (num den : Z) : Z :=
  let q := num / den in
  let r := num mod den in
  match 2 * r ?= den with
  | Lt => q
  | Gt => q + 1
  | Eq => if Z.even q then q else q + 1
  end.

(** [round(x, ndigits)] on a float, [ndigits >= 0].  CPython prints the
    exact binary value of [x] to [ndigits] decimals, correctly rounded with
    ties to even, and reads the decimal back as the nearest double. *)
Definition round (x : float) (ndigits : Z) : float :=
  match Prim2SF x with
  | S754_finite s m e =>
      let scale := 10 ^ ndigits in
      let num := if 0 <=? e then Z.pos m * 2 ^ e * scale else Z.pos m * scale in
      let den := if 0 <=? e then 1 else 2 ^ (- e) in
      let r := truediv (round_half_even num den) scale in
      if s then (- r)%float else r
  | _ => x
  end.

(** Exceptions the driver can raise. *)
Inductive exception : Type :=
| KeyError (key : Z).

(** Outcome of evaluating an expression. *)
Inductive result (A : Type) : Type :=
| Return (a : A)
| Raise (e : exception).

Arguments Return {A} a.
Arguments Raise {A} e.

Definition bind {A B : Type} (r : result A) (k : A -> result B) : result B :=
  match r with
  | Return a => k a
  | Raise e => Raise e
  end.

(** [data[i]].  Every index in the driver is preceded by a [len(data) >= n]
    test with [i < n], so the default is never read. *)
Definition item (data : list Z) (i : nat) : Z := nth i data 0.

(** [len(data)]. *)
Definition len (data : list Z) : Z := Z.of_nat (List.length data).

End Py.

Notation "x <- r ;; k" := (Py.bind r (fun x => k))
  (at level 61, r at next level, right associativity).

(** ** Data model *)

(** [InterfaceEndpoint(interface, endpoint)].

    Modelled from the spec: the class lives in [arctis_chatmix.device_manager],
    which is not among the sources.  The driver builds it from two positional
    integers and reads [.interface] and [.endpoint]; per the spec (section 3,
    EndpointAddress) it is an immutable value, compared field by field. *)
Module InterfaceEndpoint.
Record t : Type := make {
  interface : Z;
  endpoint : Z
}.

(** [a == b]. *)
Definition eqb (a b : t) : bool :=
  (interface a =? interface b) && (endpoint a =? endpoint b).
End InterfaceEndpoint.

(** The two ways a status field is interpreted. *)
Inductive interpretation : Type :=
| label (value : string)
| mapped (value : Py.number).

(** [DeviceStatusValue(raw, value)] and [DeviceStatusValue(raw, mapped_val=f)].

    Modelled from the spec: the class lives in
    [arctis_chatmix.device_manager.device_status], which is not among the
    sources.  Per the spec (section 3, DeviceStatusValue) a value carries the
    raw integer and exactly one interpretation, either a symbolic label or
    "a numeric value produced by a pure transform of rawValue": the transform
    is applied to the raw value when the object is built, and an exception it
    raises leaves the constructor. *)
Record DeviceStatusValue : Type := {
  raw_value : Z;
  meaning : interpretation
}.

Definition DeviceStatusValue_label (raw : Z) (value : string) : DeviceStatusValue :=
  {| raw_value := raw; meaning := label value |}.

Definition DeviceStatusValue_mapped (raw : Z) (mapped_val : Z -> Py.result Py.number)
  : Py.result DeviceStatusValue :=
  v <- mapped_val raw ;;
  Py.Return {| raw_value := raw; meaning := mapped v |}.

(** [DeviceStatus(...)], with the keyword arguments of the driver as fields.
    Modelled from the spec: the dataclass itself is not among the sources. *)
Record DeviceStatus : Type := {
  bluetooth_powerup_state : DeviceStatusValue;
  bluetooth_auto_mute : DeviceStatusValue;
  bluetooth_power_status : DeviceStatusValue;
  bluetooth_connection : DeviceStatusValue;
  headset_battery_charge : DeviceStatusValue;
  charge_slot_battery_charge : DeviceStatusValue;
  transparent_noise_cancelling_level : DeviceStatusValue;
  mic_status : DeviceStatusValue;
  noise_cancelling : DeviceStatusValue;
  mic_led_brightness : DeviceStatusValue;
  auto_off_time_minutes : DeviceStatusValue;
  wireless_mode : DeviceStatusValue;
  wireless_pairing : DeviceStatusValue;
  headset_power_status : DeviceStatusValue
}.

(** [ChatMixState(game_volume, chat_volume, game_mix, chat_mix, device_status)].
    Modelled from the spec: the class lives in [arctis_chatmix.device_manager],
    which is not among the sources; per the spec (section 3, ChatMixState) it
    is a plain record of the five keyword arguments the driver passes. *)
Module ChatMixState.
Record t : Type := {
  game_volume : Py.number;
  chat_volume : Py.number;
  game_mix : Py.number;
  chat_mix : Py.number;
  device_status : option DeviceStatus
}.
End ChatMixState.

(** What [print(x)] writes. *)
Inductive printed : Type :=
| printed_int (x : Z)
| printed_bool (x : bool).

(** [SliderSetting] and [ToggleSetting], the two kinds of [DeviceSetting].
    Modelled from the spec: the classes live in
    [arctis_chatmix.device_manager.device_settings], which is not among the
    sources; per the spec (section 3, DeviceSetting) they are descriptors
    holding what the constructor is given.  Attribute names are those read by
    [settings_window.py]; the positional order is the one of the constructor
    calls in the driver. *)
Inductive DeviceSetting : Type :=
| SliderSetting (name min_label max_label : string)
                (min_value max_value step current_state : Z)
                (on_value_change : Z -> list printed)
| ToggleSetting (name untoggled_label toggled_label : string)
                (current_state : bool)
                (on_value_change : bool -> list printed).

(** What the driver does on the USB handle: [self.kernel_detach(endpoint)],
    [self.device.write(address, frame)] and, for completeness of the
    transport, a read. *)
Inductive usb_event : Type :=
| kernel_detach (endpoint : InterfaceEndpoint.t)
| write (address : Z) (frame : list Z)
| read (address : Z).

(** A call of [self.log.debug]. *)
Inductive log_record : Type :=
| debug_text (message : string)
| debug_incoming (interface endpoint : Z) (data : list Z).

(** ** The driver *)

Definition INACTIVE_TIME_MINUTES : list (Z * Z) :=
  [ (0, 0); (1, 1); (2, 5); (3, 10); (4, 15); (5, 30); (6, 60) ].

(** [INACTIVE_TIME_MINUTES[x]]: subscripting a dict raises [KeyError] on a
    missing key. *)
Fixpoint getitem (d : list (Z * Z)) (x : Z) : Py.result Z :=
  match d with
  | [] => Py.Raise (Py.KeyError x)
  | (k, v) :: d' => if k =? x then Py.Return v else getitem d' x
  end.

(** The instance attributes of [ArctisNovaProWirelessDevice]; both start as
    [None]. *)
Record ArctisNovaProWirelessDevice : Type := {
  game_mix : option Py.number;
  chat_mix : option Py.number
}.

Definition new_device : ArctisNovaProWirelessDevice :=
  {| game_mix := None; chat_mix := None |}.

Definition get_device_name : string := "Arctis Nova Pro Wireless".

Definition get_device_product_id : Z := 0x12e0.

(** [packet_0_filler(packet, size)]; [range] of a negative number is empty. *)
Definition packet_0_filler (packet : list Z) (size : Z) : list Z :=
  packet ++ repeat 0 (Z.to_nat (size - Py.len packet)).

(** The literal [commands] of [init_device]: bytes and "expects response". *)
Definition commands : list (list Z * bool) :=
  [ ([0x06; 0x20], true);
    ([0x06; 0x20], true);
    ([0x06; 0x10], true);
    ([0x06; 0x10], true);
    ([0x06; 0x10], true);
    ([0x06; 0x3b], false);
    ([0x06; 0x8d; 0x01], true);
    ([0x06; 0x20], true);
    ([0x06; 0x20], true);
    ([0x06; 0x20], true);
    ([0x06; 0x80], true);
    ([0x06; 0x3b], false);
    ([0x06; 0x8d; 0x01], false);
    ([0x06; 0x33; 0x14; 0x14; 0x14], false);
    ([0x06; 0xc3; 0x00], false);
    ([0x06; 0x2e; 0x00], false);
    ([0x06; 0xc1; 0x05], false);
    ([0x06; 0x85; 0x0a], false);
    ([0x06; 0x37; 0x0a], false);
    ([0x06; 0xb2], false);
    ([0x06; 0x47; 0x64; 0x00; 0x64], false);
    ([0x06; 0x83; 0x01], false);
    ([0x06; 0x89; 0x00], false);
    ([0x06; 0x27; 0x02], false);
    ([0x06; 0xb3; 0x00], false);
    ([0x06; 0x39; 0x00], false);
    ([0x06; 0xbf; 0x0a], false);
    ([0x06; 0x43; 0x01], false);
    ([0x06; 0x69; 0x00], false);
    ([0x06; 0x3b; 0x00], false);
    ([0x06; 0x8d; 0x01], false);
    ([0x06; 0x49; 0x01], false);
    ([0x06; 0xb7; 0x00], false);
    ([0x06; 0xb7; 0x00], true);
    ([0x06; 0xb7; 0x00], true);
    ([0x06; 0xb0; 0x00], true);
    ([0x06; 0x20; 0x00], true);
    ([0x06; 0xb7; 0x00], true) ].

Section Driver.

(** Inherited from [DeviceManager], which is not among the sources, and taken
    as parameters: the endpoint found on an interface for a direction, and
    the [bEndpointAddress] the USB descriptors give for it
    ([self.device[0].interfaces()[i].endpoints()[e].bEndpointAddress]). *)
Variable utility_guess_endpoint : Z -> string -> InterfaceEndpoint.t.
Variable bEndpointAddress : InterfaceEndpoint.t -> Z.

Definition get_endpoint_addresses_to_listen : list InterfaceEndpoint.t :=
  [utility_guess_endpoint 7 "in"].

Definition get_request_device_status : InterfaceEndpoint.t * list Z :=
  (utility_guess_endpoint 7 "out", [0x06; 0xb0]).

(** One turn of the [for command in commands] loop: a single write of the
    padded command; nothing is read back. *)
Definition init_device_step (commands_endpoint_address : Z)
  (bus : list usb_event) (command : list Z * bool) : list usb_event :=
  bus ++ [write commands_endpoint_address (packet_0_filler (fst command) 91)].

(** [init_device]: the USB operations it performs, oldest first. *)
Definition init_device : list usb_event :=
  let endpoint := fst get_request_device_status in
  let commands_endpoint_address := bEndpointAddress endpoint in
  let bus := [kernel_detach endpoint] in
  fold_left (init_device_step commands_endpoint_address) commands bus.

End Driver.

(** The [DeviceStatus(...)] expression of [manage_input_data], keyword
    arguments evaluated in the order they are written. *)
Definition decode_device_status (data : list Z) : Py.result DeviceStatus :=
  let d := Py.item data in
  let bluetooth_powerup_state :=
    DeviceStatusValue_label (d 2%nat) (if d 2%nat =? 0x00 then "on_off.off" else "on_off.on") in
  let bluetooth_auto_mute :=
    DeviceStatusValue_label (d 3%nat)
      (if d 3%nat =? 0x00 then "on_off.off" else if d 3%nat =? 0x01 then "db.-12db" else "on_off.on") in
  let bluetooth_power_status :=
    DeviceStatusValue_label (d 4%nat) (if d 4%nat =? 0x01 then "on_off.off" else "on_off.on") in
  let bluetooth_connection :=
    DeviceStatusValue_label (d 5%nat)
      (if d 5%nat =? 0x00 then "on_off.off"
       else if d 5%nat =? 0x01 then "connection.connected" else "connection.disconnected") in
  headset_battery_charge <-
    DeviceStatusValue_mapped (d 6%nat)
      (fun x => Py.Return (Py.Float (Py.round (Py.truediv x 8) 2))) ;;
  charge_slot_battery_charge <-
    DeviceStatusValue_mapped (d 7%nat)
      (fun x => Py.Return (Py.Float (Py.round (Py.truediv x 8) 2))) ;;
  transparent_noise_cancelling_level <-
    DeviceStatusValue_mapped (d 8%nat)
      (fun x => Py.Return (Py.Float (Py.round (Py.truediv x 10) 0))) ;;
  let mic_status :=
    DeviceStatusValue_label (d 9%nat)
      (if d 9%nat =? 0x00 then "mic_status.unmuted" else "mic_status.muted") in
  let noise_cancelling :=
    DeviceStatusValue_label (d 10%nat)
      (if d 10%nat =? 0x00 then "off" else if d 10%nat =? 0x01 then "transparent" else "on") in
  mic_led_brightness <-
    DeviceStatusValue_mapped (d 11%nat) (fun x => Py.Return (Py.Float (Py.truediv x 10))) ;;
  auto_off_time_minutes <-
    DeviceStatusValue_mapped (d 12%nat)
      (fun x => v <- getitem INACTIVE_TIME_MINUTES x ;; Py.Return (Py.Int v)) ;;
  let wireless_mode :=
    DeviceStatusValue_label (d 13%nat)
      (if d 13%nat =? 0x00 then "wireless_mode.speed" else "wireless_mode.range") in
  let wireless_pairing :=
    DeviceStatusValue_label (d 14%nat)
      (if d 14%nat =? 0x01 then "pairing.not_paired"
       else if d 13%nat =? 0x04 then "pairing.paired_offline" else "connection.connected") in
  let headset_power_status :=
    DeviceStatusValue_label (d 15%nat)
      (if d 15%nat =? 0x01 then "connection.offline"
       else if d 14%nat =? 0x02 then "connection.cable_charging" else "connection.online") in
  Py.Return
    {| bluetooth_powerup_state := bluetooth_powerup_state;
       bluetooth_auto_mute := bluetooth_auto_mute;
       bluetooth_power_status := bluetooth_power_status;
       bluetooth_connection := bluetooth_connection;
       headset_battery_charge := headset_battery_charge;
       charge_slot_battery_charge := charge_slot_battery_charge;
       transparent_noise_cancelling_level := transparent_noise_cancelling_level;
       mic_status := mic_status;
       noise_cancelling := noise_cancelling;
       mic_led_brightness := mic_led_brightness;
       auto_off_time_minutes := auto_off_time_minutes;
       wireless_mode := wireless_mode;
       wireless_pairing := wireless_pairing;
       headset_power_status := headset_power_status |}.

(** A call of a method: what it returns or raises, [self] afterwards, and
    the log records it emitted. *)
Record call (A : Type) : Type := {
  returned : Py.result A;
  self_after : ArctisNovaProWirelessDevice;
  logged : list log_record
}.

Arguments returned {A} c.
Arguments self_after {A} c.
Arguments logged {A} c.

(** The [if]/[elif] chain of [manage_input_data]: the [device_status] local
    (or the exception that interrupts the method), [self] and the log. *)
Definition dispatch (self : ArctisNovaProWirelessDevice) (data : list Z)
  (endpoint : InterfaceEndpoint.t) : call (option DeviceStatus) :=
  let d := Py.item data in
  let incoming :=
    debug_incoming (InterfaceEndpoint.interface endpoint)
      (InterfaceEndpoint.endpoint endpoint) data in
  if InterfaceEndpoint.eqb endpoint (InterfaceEndpoint.make 7 0) then
    if (2 <=? Py.len data) && (d 0%nat =? 0x07) && (d 1%nat =? 0x25) then
      {| returned := Py.Return None; self_after := self; logged := [] |}
    else if (4 <=? Py.len data) && (d 0%nat =? 0x07) && (d 1%nat =? 0x45) then
      {| returned := Py.Return None;
         self_after := {| game_mix := Some (Py.Float (Py.truediv (d 2%nat) 100));
                          chat_mix := Some (Py.Float (Py.truediv (d 3%nat) 100)) |};
         logged := [debug_text "Received volume control data."] |}
    else if (16 <=? Py.len data) && (d 0%nat =? 0x06) && (d 1%nat =? 0xb0) then
      {| returned := (s <- decode_device_status data ;; Py.Return (Some s));
         self_after := self; logged := [] |}
    else
      {| returned := Py.Return None; self_after := self; logged := [incoming] |}
  else
    {| returned := Py.Return None; self_after := self; logged := [incoming] |}.

(** [x if x is not None else 1]. *)
Definition or_one (x : option Py.number) : Py.number :=
  match x with
  | Some v => v
  | None => Py.Int 1
  end.

Definition manage_input_data (self : ArctisNovaProWirelessDevice) (data : list Z)
  (endpoint : InterfaceEndpoint.t) : call ChatMixState.t :=
  let volume := Py.Int 1 in
  let branch := dispatch self data endpoint in
  let self' := self_after branch in
  {| returned :=
       device_status <- returned branch ;;
       Py.Return
         {| ChatMixState.game_volume := volume;
            ChatMixState.chat_volume := volume;
            ChatMixState.game_mix := or_one (game_mix self');
            ChatMixState.chat_mix := or_one (chat_mix self');
            ChatMixState.device_status := device_status |};
     self_after := self';
     logged := logged branch |}.

(** [lambda x: print(x)]. *)
Definition print_int (x : Z) : list printed := [printed_int x].
Definition print_bool (x : bool) : list printed := [printed_bool x].

(** [get_configurable_settings(state)]: the dict, in insertion order.  The
    body assigns no attribute, so [self] comes back as it went in. *)
Definition get_configurable_settings (self : ArctisNovaProWirelessDevice)
  (state : option DeviceStatus)
  : list (string * list DeviceSetting) * ArctisNovaProWirelessDevice :=
  ([ ("microphone",
      [ SliderSetting "mic_volume" "mic_volume_muted" "mic_volume_max" 0x01 0x10 1 0x10 print_int;
        SliderSetting "mic_side_tone" "mic_side_tone_none" "mic_side_tone_high" 0x00 0x03 1 0x00 print_int;
        ToggleSetting "mic_gain" "mic_gain_low" "mic_gain_high" true print_bool ]);
     ("anc",
      [ SliderSetting "anc_level" "anc_level_low" "anc_level_high" 0x00 0x03 1 0x00 print_int ]);
     ("power_management",
      [ SliderSetting "pm_shutdown" "pm_shutdown_disabled" "pm_shutdown_60_minutes" 0x00 0x06 1 0x04 print_int ]);
     ("wireless",
      [ ToggleSetting "wireless_mode" "wireless_mode_speed" "wireless_mode_range" false print_bool ]) ],
   self).

(** ** Sample reports *)

(** The status report of the specification's second end-to-end scenario. *)
Definition status_report : list Z :=
  [0x06; 0xb0; 0x00; 0x01; 0x01; 0x01; 64; 64; 30; 0x00; 0x02; 50; 5; 0x01; 0x04; 0x02].

(** The same report with inactivity code 7. *)
Definition status_report_code_7 : list Z :=
  [0x06; 0xb0; 0x00; 0x01; 0x01; 0x01; 64; 64; 30; 0x00; 0x02; 50; 7; 0x01; 0x04; 0x02].

(** A status report with [0x04] at offset 13 and [0x01] at offset 14. *)
Definition status_report_13_04_14_01 : list Z :=
  [0x06; 0xb0; 0x00; 0x01; 0x01; 0x01; 64; 64; 30; 0x00; 0x02; 50; 5; 0x04; 0x01; 0x02].

(** A status report with [0x04] at offset 13 and [0x08] at offset 14. *)
Definition status_report_13_04_14_08 : list Z :=
  [0x06; 0xb0; 0x00; 0x01; 0x01; 0x01; 64; 64; 30; 0x00; 0x02; 50; 5; 0x04; 0x08; 0x08].

(** A driver that has already seen a mix report. *)
Definition mixed_device : ArctisNovaProWirelessDevice :=
  {| game_mix := Some (Py.Float 0.5); chat_mix := Some (Py.Float 0.75) |}.

(** The endpoint the driver dispatches on. *)
Definition monitored : InterfaceEndpoint.t := InterfaceEndpoint.make 7 0.

(** What a call decoded: the [device_status] of the returned state, if the
    call returned one. *)
Definition decoded_status (c : call ChatMixState.t) : option DeviceStatus :=
  match returned c with
  | Py.Return r => ChatMixState.device_status r
  | Py.Raise _ => None
  end.

(** USB descriptors used when a concrete bus is needed: every interface
    resolves to its endpoint 0, and the output endpoint has address 4. *)
Definition sample_guess_endpoint (interface : Z) (direction : string) : InterfaceEndpoint.t :=
  InterfaceEndpoint.make interface 0.

Definition sample_bEndpointAddress (endpoint : InterfaceEndpoint.t) : Z := 0x04.

(** The frame a command is sent in. *)
Definition frame_of (command : list Z * bool) : list Z :=
  packet_0_filler (fst command) 91.

Fixpoint frame_eqb (a b : list Z) : bool :=
  match a, b with
  | [], [] => true
  | x :: a', y :: b' => (x =? y) && frame_eqb a' b'
  | _, _ => false
  end.

Definition is_read (e : usb_event) : bool :=
  match e with
  | read _ => true
  | _ => false
  end.

(** The initialization discipline in the specification's words (section
    4.2): the bus carries one write per table entry, in table order, and
    after a command that expects a response the acknowledgement is read
    before the next command is written.  [pending] tells that the last
    command written expects a response that has not been read yet. *)
Fixpoint acknowledged_in_order (pending : bool) (bus : list usb_event)
  (table : list (list Z * bool)) {struct bus} : bool :=
  match bus with
  | [] => match table with [] => true | _ :: _ => false end
  | kernel_detach _ :: bus' => acknowledged_in_order pending bus' table
  | read _ :: bus' => acknowledged_in_order false bus' table
  | write _ frame :: bus' =>
      match table with
      | [] => false
      | command :: table' =>
          negb pending
          && frame_eqb frame (frame_of command)
          && acknowledged_in_order (snd command) bus' table'
      end
  end.

(** The table with every "expects response" flag cleared. *)
Definition without_responses (table : list (list Z * bool)) : list (list Z * bool) :=
  map (fun command => (fst command, false)) table.

(** The mix report of the specification's first end-to-end scenario. *)
Definition mix_report : list Z := [0x07; 0x45; 50; 75].

(** A mix report whose game byte is above 100. *)
Definition mix_report_150 : list Z := [0x07; 0x45; 150; 75].

(** A report no branch of the dispatcher recognizes. *)
Definition opaque_report : list Z := [0x01; 0x02; 0x03].

(** What [status_report] decodes to. *)
Definition status_report_decoded : DeviceStatus :=
  {| bluetooth_powerup_state := DeviceStatusValue_label 0x00 "on_off.off";
     bluetooth_auto_mute := DeviceStatusValue_label 0x01 "db.-12db";
     bluetooth_power_status := DeviceStatusValue_label 0x01 "on_off.off";
     bluetooth_connection := DeviceStatusValue_label 0x01 "connection.connected";
     headset_battery_charge := {| raw_value := 64; meaning := mapped (Py.Float 8) |};
     charge_slot_battery_charge := {| raw_value := 64; meaning := mapped (Py.Float 8) |};
     transparent_noise_cancelling_level := {| raw_value := 30; meaning := mapped (Py.Float 3) |};
     mic_status := DeviceStatusValue_label 0x00 "mic_status.unmuted";
     noise_cancelling := DeviceStatusValue_label 0x02 "on";
     mic_led_brightness := {| raw_value := 50; meaning := mapped (Py.Float 5) |};
     auto_off_time_minutes := {| raw_value := 5; meaning := mapped (Py.Int 30) |};
     wireless_mode := DeviceStatusValue_label 0x01 "wireless_mode.range";
     wireless_pairing := DeviceStatusValue_label 0x04 "connection.connected";
     headset_power_status := DeviceStatusValue_label 0x02 "connection.online" |}.

(** The report starts with the two bytes [a], [b]. *)
Definition leading (data : list Z) (a b : Z) : Prop :=
  exists rest, data = a :: b :: rest.

(** [0.0 <= f <= 1.0]. *)
Definition in_unit_interval (f : float) : bool :=
  ((0 <=? f) && (f <=? 1))%float.

(** The integers [lo, lo + 1, ..., lo + n - 1]. *)
Definition Z_range (lo : Z) (n : nat) : list Z :=
  map (fun i => lo + Z.of_nat i) (seq 0 n).

(** The raw integers a decoded status carries, in field order. *)
Definition raw_values (s : DeviceStatus) : list Z :=
  [ raw_value (bluetooth_powerup_state s);
    raw_value (bluetooth_auto_mute s);
    raw_value (bluetooth_power_status s);
    raw_value (bluetooth_connection s);
    raw_value (headset_battery_charge s);
    raw_value (charge_slot_battery_charge s);
    raw_value (transparent_noise_cancelling_level s);
    raw_value (mic_status s);
    raw_value (noise_cancelling s);
    raw_value (mic_led_brightness s);
    raw_value (auto_off_time_minutes s);
    raw_value (wireless_mode s);
    raw_value (wireless_pairing s);
    raw_value (headset_power_status s) ].

(** The report is a game/chat mix report the dispatcher acts on. *)
Definition is_mix_report (data : list Z) (endpoint : InterfaceEndpoint.t) : Prop :=
  endpoint = InterfaceEndpoint.make 7 0 /\ leading data 0x07 0x45 /\ 4 <= Py.len data.

(** The report is a status report the dispatcher decodes. *)
Definition is_status_report (data : list Z) (endpoint : InterfaceEndpoint.t) : Prop :=
  endpoint = InterfaceEndpoint.make 7 0 /\ leading data 0x06 0xb0 /\ 16 <= Py.len data.

(** The sliders of a catalog, with the section they are in left out. *)
Definition sliders (catalog : list (string * list DeviceSetting))
  : list (string * (Z * Z * Z * Z)) :=
  flat_map
    (fun section =>
       flat_map
         (fun setting =>
            match setting with
            | SliderSetting name _ _ min_value max_value step current_state _ =>
                [(name, (min_value, max_value, step, current_state))]
            | ToggleSetting _ _ _ _ _ => []
            end)
         (snd section))
    catalog.

(** The name of a setting. *)
Definition setting_name (setting : DeviceSetting) : string :=
  match setting with
  | SliderSetting name _ _ _ _ _ _ _ => name
  | ToggleSetting name _ _ _ _ => name
  end.

(** [R] holds from every element of the list to itself and to every later
    element. *)
Fixpoint all_pairs {A : Type} (R : A -> A -> bool) (l : list A) : bool :=
  match l with
  | [] => true
  | a :: l' => R a a && forallb (R a) l' && all_pairs R l'
  end.

(** ** Configuration files ([config_manager.py]) *)

(** A value [json.load] can return. *)
Module Json.
#[local] Set Warnings "-register-all".
Inductive value : Type :=
| null
| boolean (b : bool)
| integer (z : Z)
| real (f : float)
| text (s : string)
| array (items : list value)
| object (members : list (string * value)).
End Json.

(** A Python dict with string keys, as the list of its items in insertion
    order. *)
Section Dict.

Context {V : Type}.

(** [d.get(key)]. *)
Fixpoint dict_lookup (d : list (string * V)) (key : string) : option V :=
  match d with
  | [] => None
  | (k, v) :: d' => if String.eqb k key then Some v else dict_lookup d' key
  end.

(** [d.get(key, default)]. *)
Definition dict_get (d : list (string * V)) (key : string) (default : V) : V :=
  match dict_lookup d key with
  | Some v => v
  | None => default
  end.

(** [d[key] = value]: an existing key keeps its place, a new one goes last. *)
Fixpoint dict_setitem (d : list (string * V)) (key : string) (value : V)
  : list (string * V) :=
  match d with
  | [] => [(key, value)]
  | (k, v) :: d' =>
      if String.eqb k key then (k, value) :: d' else (k, v) :: dict_setitem d' key value
  end.

End Dict.

(** [s[n:]]. *)
Fixpoint slice_from (n : nat) (s : string) : string :=
  match n, s with
  | O, _ => s
  | S n', String _ s' => slice_from n' s'
  | S _, EmptyString => EmptyString
  end.

(** [hex(x)]: Python and [HexString.of_Z] print the same text (lower case,
    [0x] prefix, [-0x] for a negative number, [0x0] for zero). *)
Definition hex (x : Z) : string := HexString.of_Z x.

Module ConfigManager.

(** The content of a configuration file, as [json.load] returns it.  The
    files are the ones [json.dump] wrote from such a dict, and [json.load]
    gives back what [json.dump] was given, so a file is kept as the dict it
    holds. *)
Definition config : Type := list (string * Json.value).

(** The regular files of the directory [self.config_path], by name. *)
Definition directory : Type := list (string * config).

(** [f'device_{hex(vendor_id)[2:]}_{hex(product_id)[2:]}.json']. *)
Definition device_file (vendor_id product_id : Z) : string :=
  "device_" ++ slice_from 2 (hex vendor_id) ++ "_" ++ slice_from 2 (hex product_id) ++ ".json".

(** The name of [self.general_config_path] inside [self.config_path]. *)
Definition general_file : string := "general.json".

(** [get_device_config]: the file's content if it is a file, else [None]. *)
Definition get_device_config (files : directory) (vendor_id product_id : Z) : option config :=
  dict_lookup files (device_file vendor_id product_id).

(** [save_device_config]: the file is created or overwritten. *)
Definition save_device_config (files : directory) (vendor_id product_id : Z)
  (c : config) : directory :=
  dict_setitem files (device_file vendor_id product_id) c.

(** [get_general_config]: the file's content if it is a file, else [{}]. *)
Definition get_general_config (files : directory) : config :=
  match dict_lookup files general_file with
  | Some c => c
  | None => []
  end.

Definition save_general_config (files : directory) (c : config) : directory :=
  dict_setitem files general_file c.

End ConfigManager.

(** The characters [hex] prints after its prefix. *)
Definition is_hex_digit (c : ascii) : bool :=
  existsb (Ascii.eqb c)
    ["0"; "1"; "2"; "3"; "4"; "5"; "6"; "7"; "8"; "9"; "a"; "b"; "c"; "d"; "e"; "f"]%char.

Fixpoint all_hex_digits (s : string) : bool :=
  match s with
  | EmptyString => true
  | String c s' => is_hex_digit c && all_hex_digits s'
  end.

(** ** Audio sinks ([pactl_utils.py]) *)

Module PactlDevice.
Record t : Type := make {
  name : string;
  description : string
}.
End PactlDevice.

Module Pactl.

(** What the list comprehension of [pactl_get_available_sinks] evaluates
    to: the devices, or [ValueError] when a line does not unpack into a name
    and a description. *)
Inductive result : Type :=
| Return (devices : list PactlDevice.t)
| ValueError.

Definition colon : ascii := ":"%char.

(** The characters the driver strips: space, double quote and newline. *)
Definition stripped : list ascii := [" "%char; "034"%char; "010"%char].

Definition is_stripped (c : ascii) : bool :=
  existsb (Ascii.eqb c) stripped.

(** [s.split(':')]. *)
Fixpoint split (s : string) : list string :=
  match s with
  | EmptyString => [EmptyString]
  | String c s' =>
      if Ascii.eqb c colon then EmptyString :: split s'
      else match split s' with
           | part :: parts => String c part :: parts
           | [] => [String c EmptyString]
           end
  end.

(** [s.lstrip(chars)] for these characters. *)
Fixpoint lstrip (s : string) : string :=
  match s with
  | EmptyString => EmptyString
  | String c s' => if is_stripped c then lstrip s' else s
  end.

(** [s.rstrip(chars)] for these characters. *)
Fixpoint rstrip (s : string) : string :=
  match s with
  | EmptyString => EmptyString
  | String c s' =>
      match rstrip s' with
      | EmptyString => if is_stripped c then EmptyString else String c EmptyString
      | String c' r => String c (String c' r)
      end
  end.

(** [s.strip(chars)] for these characters. *)
Definition strip (s : string) : string := rstrip (lstrip s).

(** The [for name, description in ...] part: each split line must unpack
    into exactly two strings. *)
Fixpoint unpack (lines : list (list string)) : result :=
  match lines with
  | [] => Return []
  | [name; description] :: lines' =>
      match unpack lines' with
      | Return devices =>
          Return (PactlDevice.make (strip name) (strip description) :: devices)
      | ValueError => ValueError
      end
  | _ :: _ => ValueError
  end.

(** [pactl_get_available_sinks], on the lines [os.popen(...).readlines()]
    returned. *)
Definition pactl_get_available_sinks (raw_result : list string) : result :=
  unpack (map split raw_result).

(** Every character of the string is one of the stripped ones. *)
Fixpoint all_stripped (s : string) : bool :=
  match s with
  | EmptyString => true
  | String c s' => is_stripped c && all_stripped s'
  end.

(** The number of colons of a string. *)
Fixpoint colons (s : string) : nat :=
  match s with
  | EmptyString => O
  | String c s' => if Ascii.eqb c colon then S (colons s') else colons s'
  end.

(** The line the awk script prints for a sink: the quoted node name, a
    colon between two spaces, the quoted description, and the end of line. *)
Definition sink_line (name description : string) : string :=
  String "034" name ++ String "034" " : " ++ String "034" description
  ++ String "034" (String "010" EmptyString).

End Pactl.

(** ** General settings ([settings_window.py]) *)

Module SettingsWindow.

(** The three static callbacks: read the general configuration, set one
    key, write it back. *)
Definition on_device_switch_changed (files : ConfigManager.directory) (enabled : bool)
  : ConfigManager.directory :=
  let config := ConfigManager.get_general_config files in
  let config := dict_setitem config "device_switch" (Json.boolean enabled) in
  ConfigManager.save_general_config files config.

Definition on_smart_device_switch_changed (files : ConfigManager.directory) (enabled : bool)
  : ConfigManager.directory :=
  let config := ConfigManager.get_general_config files in
  let config := dict_setitem config "smart_device_switch" (Json.boolean enabled) in
  ConfigManager.save_general_config files config.

Definition on_fallback_device_changed (files : ConfigManager.directory)
  (device : PactlDevice.t) : ConfigManager.directory :=
  let config := ConfigManager.get_general_config files in
  let config :=
    dict_setitem config "fallback_device" (Json.text (PactlDevice.description device)) in
  ConfigManager.save_general_config files config.

(** [arctis_re.match(s)] for the pattern [.*[Aa]rctis.*]: the word occurs
    in the text before any newline (the dot does not match a newline, and
    [match] starts at the beginning). *)
Fixpoint arctis_match (s : string) : bool :=
  match s with
  | EmptyString => false
  | String c s' =>
      if Ascii.eqb c "010" then false
      else String.prefix "Arctis" s || String.prefix "arctis" s || arctis_match s'
  end.

(** What the fallback-device block of [_setup_general_settings] leaves
    behind: [IndexError] from [devices[0]], or the files and the value of
    [current_fallback_device_name]. *)
Inductive fallback : Type :=
| IndexError
| Ready (files : ConfigManager.directory) (current_fallback_device_name : Json.value).

(** The list comprehension that keeps the sinks that are not Arctis ones. *)
Definition fallback_devices (sinks : list PactlDevice.t) : list PactlDevice.t :=
  filter (fun device => negb (arctis_match (PactlDevice.description device))) sinks.

(** The fallback-device block of [_setup_general_settings], from the regular
    expression to the end of the [if]: with no fallback device configured
    ([get] gives [None] for a missing key and for a JSON null), the first
    sink that is not an Arctis one is saved and becomes the current one.
    [sinks] is what [pactl_get_available_sinks()] returned. *)
Definition setup_fallback_device (files : ConfigManager.directory)
  (sinks : list PactlDevice.t) : fallback :=
  let devices := fallback_devices sinks in
  match dict_get (ConfigManager.get_general_config files) "fallback_device" Json.null with
  | Json.null =>
      match devices with
      | [] => IndexError
      | device :: _ =>
          Ready (on_fallback_device_changed files device)
            (Json.text (PactlDevice.description device))
      end
  | current_fallback_device_name => Ready files current_fallback_device_name
  end.

End SettingsWindow.

(** ** Properties of the building blocks *)

(** [round] sends ties to the even neighbour, as CPython does. *)
Example round_tie_to_even :
  Py.round (Py.truediv 1 8) 2 = Py.truediv 12 100
  /\ Py.round (Py.truediv 3 8) 2 = Py.truediv 38 100
  /\ Py.round (Py.truediv 25 10) 0 = 2%float
  /\ Py.round (Py.truediv 35 10) 0 = 4%float
  /\ Py.round (Py.truediv 255 8) 2 = Py.truediv 3188 100.
Proof. vm_compute. repeat split. Qed.

Lemma InterfaceEndpoint_eqb_eq (a b : InterfaceEndpoint.t) :
  InterfaceEndpoint.eqb a b = true <-> a = b.
Proof.
  destruct a as [ai ae], b as [bi be]; unfold InterfaceEndpoint.eqb; simpl.
  rewrite andb_true_iff, !Z.eqb_eq. split.
  - intros [-> ->]. reflexivity.
  - intros H. injection H as -> ->. split; reflexivity.
Qed.

Lemma InterfaceEndpoint_eqb_neq (a b : InterfaceEndpoint.t) :
  a <> b -> InterfaceEndpoint.eqb a b = false.
Proof.
  intros H. destruct (InterfaceEndpoint.eqb a b) eqn:E; [|reflexivity].
  apply InterfaceEndpoint_eqb_eq in E. contradiction.
Qed.

(** The table answers exactly the codes 0 to 6. *)
Lemma getitem_INACTIVE_TIME_MINUTES_known (x : Z) :
  0 <= x <= 6 -> exists v, getitem INACTIVE_TIME_MINUTES x = Py.Return v.
Proof.
  intros H.
  assert (x = 0 \/ x = 1 \/ x = 2 \/ x = 3 \/ x = 4 \/ x = 5 \/ x = 6) as C by lia.
  repeat (destruct C as [-> | C]; [eexists; reflexivity|]).
  subst x. eexists. reflexivity.
Qed.

Lemma getitem_INACTIVE_TIME_MINUTES_unknown (x : Z) :
  ~ (0 <= x <= 6) -> getitem INACTIVE_TIME_MINUTES x = Py.Raise (Py.KeyError x).
Proof.
  intros H. cbv [INACTIVE_TIME_MINUTES getitem].
  repeat match goal with
         | |- context [?k =? x] => destruct (Z.eqb_spec k x); [lia|]
         end.
  reflexivity.
Qed.

(** Decoding fails exactly on the inactivity code, whatever the other bytes. *)
Lemma decode_device_status_unknown_code (data : list Z) :
  ~ (0 <= Py.item data 12 <= 6) ->
  decode_device_status data = Py.Raise (Py.KeyError (Py.item data 12)).
Proof.
  intros H. cbv beta zeta delta [decode_device_status DeviceStatusValue_mapped].
  rewrite (getitem_INACTIVE_TIME_MINUTES_unknown _ H). reflexivity.
Qed.

Lemma decode_device_status_known_code (data : list Z) :
  0 <= Py.item data 12 <= 6 ->
  exists s, decode_device_status data = Py.Return s
            /\ raw_value (wireless_pairing s) = Py.item data 14
            /\ meaning (wireless_pairing s) =
               label (if Py.item data 14 =? 0x01 then "pairing.not_paired"
                      else if Py.item data 13 =? 0x04 then "pairing.paired_offline"
                      else "connection.connected").
Proof.
  intros H. destruct (getitem_INACTIVE_TIME_MINUTES_known _ H) as [v Hv].
  cbv beta zeta delta [decode_device_status DeviceStatusValue_mapped].
  rewrite Hv. eexists. split; [reflexivity|]. split; reflexivity.
Qed.

(** The status branch of the dispatcher is the one taken by a report that
    starts with [0x06, 0xb0] and has at least 16 bytes. *)
Lemma dispatch_status (self : ArctisNovaProWirelessDevice) (data : list Z) :
  16 <= Py.len data -> Py.item data 0 = 0x06 -> Py.item data 1 = 0xb0 ->
  dispatch self data monitored =
  {| returned := (s <- decode_device_status data ;; Py.Return (Some s));
     self_after := self; logged := [] |}.
Proof.
  intros Hlen H0 H1. unfold dispatch, monitored. simpl InterfaceEndpoint.eqb.
  rewrite H0, H1. simpl.
  destruct (16 <=? Py.len data) eqn:E; [|apply Z.leb_gt in E; lia].
  rewrite !andb_false_r. reflexivity.
Qed.

(** ** Status reports: inactivity code and pairing state *)

(** C1.  A report of at least 16 bytes that starts with [0x06, 0xb0] and
    carries an inactivity code outside 0-6 at offset 12 makes
    [manage_input_data] raise while the status is being decoded
    ([KeyError] on the code, the driver's form of a protocol violation): no
    state and no default auto-off value is returned, and the driver's stored
    game and chat mix are what they were. *)
Theorem manage_input_data_unknown_inactivity_code_raises
  (self : ArctisNovaProWirelessDevice) (data : list Z) :
  16 <= Py.len data -> Py.item data 0 = 0x06 -> Py.item data 1 = 0xb0 ->
  ~ (0 <= Py.item data 12 <= 6) ->
  returned (manage_input_data self data monitored) = Py.Raise (Py.KeyError (Py.item data 12))
  /\ decoded_status (manage_input_data self data monitored) = None
  /\ self_after (manage_input_data self data monitored) = self.
Proof.
  intros Hlen H0 H1 Hcode.
  unfold decoded_status, manage_input_data.
  rewrite (dispatch_status self data Hlen H0 H1).
  cbn [returned self_after logged].
  rewrite (decode_device_status_unknown_code data Hcode).
  repeat split.
Qed.

Lemma manage_input_data_unknown_inactivity_code_raises_witness :
  returned (manage_input_data mixed_device status_report_code_7 monitored)
  = Py.Raise (Py.KeyError 7)
  /\ decoded_status (manage_input_data mixed_device status_report_code_7 monitored) = None
  /\ self_after (manage_input_data mixed_device status_report_code_7 monitored) = mixed_device.
Proof.
  apply (manage_input_data_unknown_inactivity_code_raises mixed_device status_report_code_7).
  - unfold Py.len; simpl; lia.
  - reflexivity.
  - reflexivity.
  - unfold Py.item; simpl; lia.
Defined.

(** C2 fails as stated: with [0x04] at offset 13 and [0x01] at offset 14 the
    pairing state decodes to "pairing.not_paired", because the test on
    offset 14 comes first. *)
Lemma wireless_pairing_offset_14_takes_precedence :
  Py.item status_report_13_04_14_01 13 = 0x04
  /\ option_map (fun s => meaning (wireless_pairing s))
       (decoded_status (manage_input_data new_device status_report_13_04_14_01 monitored))
     = Some (label "pairing.not_paired")
  /\ option_map (fun s => meaning (wireless_pairing s))
       (decoded_status (manage_input_data new_device status_report_13_04_14_01 monitored))
     <> Some (label "pairing.paired_offline").
Proof.
  split; [reflexivity|].
  assert (option_map (fun s => meaning (wireless_pairing s))
            (decoded_status (manage_input_data new_device status_report_13_04_14_01 monitored))
          = Some (label "pairing.not_paired")) as E by (vm_compute; reflexivity).
  split; [exact E|]. rewrite E. discriminate.
Qed.

(** C2, amended.  For a status report (at least 16 bytes, leading
    [0x06, 0xb0]) that decodes (inactivity code in 0-6) and has [0x04] at
    offset 13, the pairing field carries the raw byte of offset 14 and reads
    "pairing.paired_offline" whenever offset 14 is not [0x01]; when offset 14
    is [0x01] it reads "pairing.not_paired". *)
Theorem wireless_pairing_paired_offline
  (self : ArctisNovaProWirelessDevice) (data : list Z) :
  16 <= Py.len data -> Py.item data 0 = 0x06 -> Py.item data 1 = 0xb0 ->
  0 <= Py.item data 12 <= 6 ->
  Py.item data 13 = 0x04 ->
  exists s,
    decoded_status (manage_input_data self data monitored) = Some s
    /\ raw_value (wireless_pairing s) = Py.item data 14
    /\ (Py.item data 14 <> 0x01 ->
        meaning (wireless_pairing s) = label "pairing.paired_offline")
    /\ (Py.item data 14 = 0x01 ->
        meaning (wireless_pairing s) = label "pairing.not_paired").
Proof.
  intros Hlen H0 H1 Hcode H13.
  destruct (decode_device_status_known_code data Hcode) as (s & Hs & Hraw & Hmeaning).
  exists s. unfold decoded_status, manage_input_data.
  rewrite (dispatch_status self data Hlen H0 H1).
  cbn [returned self_after logged]. rewrite Hs. cbn [Py.bind ChatMixState.device_status].
  split; [reflexivity|]. split; [exact Hraw|].
  rewrite Hmeaning, H13. split; intros H14.
  - apply Z.eqb_neq in H14. rewrite H14. reflexivity.
  - rewrite H14. reflexivity.
Qed.

Lemma wireless_pairing_paired_offline_witness :
  exists s,
    decoded_status (manage_input_data new_device status_report_13_04_14_08 monitored) = Some s
    /\ raw_value (wireless_pairing s) = 0x08
    /\ (0x08 <> 0x01 -> meaning (wireless_pairing s) = label "pairing.paired_offline")
    /\ (0x08 = 0x01 -> meaning (wireless_pairing s) = label "pairing.not_paired").
Proof.
  apply (wireless_pairing_paired_offline new_device status_report_13_04_14_08).
  - unfold Py.len; simpl; lia.
  - reflexivity.
  - reflexivity.
  - unfold Py.item; simpl; lia.
  - reflexivity.
Defined.

(** ** Initialization *)

Lemma fold_left_init_device_step (address : Z) (table : list (list Z * bool))
  (bus : list usb_event) :
  fold_left (init_device_step address) table bus
  = bus ++ map (fun command => write address (frame_of command)) table.
Proof.
  revert bus. induction table as [|command table IH]; intros bus; simpl.
  - rewrite app_nil_r. reflexivity.
  - rewrite IH. unfold init_device_step, frame_of. rewrite <- app_assoc. reflexivity.
Qed.

(** The whole bus of [init_device]: the detach, then one write per entry. *)
Lemma init_device_bus (guess : Z -> string -> InterfaceEndpoint.t)
  (address_of : InterfaceEndpoint.t -> Z) :
  init_device guess address_of
  = kernel_detach (guess 7 "out")
    :: map (fun command => write (address_of (guess 7 "out")) (frame_of command)) commands.
Proof.
  unfold init_device, get_request_device_status. cbn [fst].
  rewrite fold_left_init_device_step. reflexivity.
Qed.

Lemma frame_eqb_refl (a : list Z) : frame_eqb a a = true.
Proof.
  induction a as [|x a IH]; simpl; [reflexivity|].
  rewrite Z.eqb_refl, IH. reflexivity.
Qed.

(** Writes alone satisfy the discipline of a table that expects nothing. *)
Lemma acknowledged_in_order_writes (address : Z) (table : list (list Z * bool)) :
  acknowledged_in_order false
    (map (fun command => write address (frame_of command)) table)
    (without_responses table) = true.
Proof.
  induction table as [|command table IH]; simpl; [reflexivity|].
  unfold frame_of at 1 2. cbn [fst snd]. rewrite frame_eqb_refl, IH. reflexivity.
Qed.

Lemma packet_0_filler_length (packet : list Z) :
  Py.len packet <= 91 -> Py.len (packet_0_filler packet 91) = 91.
Proof.
  unfold packet_0_filler, Py.len. intros H.
  rewrite length_app, repeat_length. lia.
Qed.

Lemma packet_0_filler_prefix (packet : list Z) (size : Z) :
  firstn (List.length packet) (packet_0_filler packet size) = packet.
Proof.
  unfold packet_0_filler.
  rewrite firstn_app, Nat.sub_diag, firstn_all. simpl. apply app_nil_r.
Qed.

Lemma packet_0_filler_suffix (packet : list Z) (size : Z) :
  skipn (List.length packet) (packet_0_filler packet size)
  = repeat 0 (Z.to_nat (size - Py.len packet)).
Proof.
  unfold packet_0_filler.
  rewrite skipn_app, Nat.sub_diag, skipn_all. reflexivity.
Qed.

(** C3 fails as stated: the first table entry expects a response, yet the
    write of the second entry follows the write of the first directly, so
    the bus of [init_device] does not follow the acknowledgement discipline;
    it contains no read at all. *)
Lemma init_device_reads_no_acknowledgement :
  nth_error commands 0 = Some ([0x06; 0x20], true)
  /\ nth_error (init_device sample_guess_endpoint sample_bEndpointAddress) 1
     = Some (write 0x04 (frame_of ([0x06; 0x20], true)))
  /\ nth_error (init_device sample_guess_endpoint sample_bEndpointAddress) 2
     = Some (write 0x04 (frame_of ([0x06; 0x20], true)))
  /\ existsb is_read (init_device sample_guess_endpoint sample_bEndpointAddress) = false
  /\ acknowledged_in_order false
       (init_device sample_guess_endpoint sample_bEndpointAddress) commands = false.
Proof. vm_compute. repeat split. Qed.

(** C3, amended.  [init_device] detaches the kernel driver and then writes
    the commands strictly in table order, one write per entry, nothing
    reordered or batched; it reads nothing, the "expects response" flag is
    not consulted, and each command is written directly after the previous
    one. *)
Theorem init_device_writes_in_table_order
  (guess : Z -> string -> InterfaceEndpoint.t) (address_of : InterfaceEndpoint.t -> Z) :
  init_device guess address_of
  = kernel_detach (guess 7 "out")
    :: map (fun command => write (address_of (guess 7 "out")) (frame_of command)) commands
  /\ existsb is_read (init_device guess address_of) = false
  /\ acknowledged_in_order false (init_device guess address_of)
       (without_responses commands) = true.
Proof.
  rewrite init_device_bus. split; [reflexivity|]. split.
  - cbn [existsb is_read orb]. generalize commands as table.
    induction table as [|command table IH]; simpl; [reflexivity | exact IH].
  - cbn [acknowledged_in_order]. apply acknowledged_in_order_writes.
Qed.

(** C6.  [init_device] writes exactly one frame per table entry to the
    output endpoint, in table order, each frame being the command bytes
    followed by zeros up to 91 bytes (no table entry is longer than 91); and
    for every packet of at most 91 bytes, [packet_0_filler packet 91] has
    length 91, starts with the packet, and is zero after it. *)
Theorem init_device_writes_padded_frames
  (guess : Z -> string -> InterfaceEndpoint.t) (address_of : InterfaceEndpoint.t -> Z)
  (packet : list Z) :
  Py.len packet <= 91 ->
  (init_device guess address_of
   = kernel_detach (guess 7 "out")
     :: map (fun command =>
               write (address_of (guess 7 "out"))
                 (fst command ++ repeat 0 (Z.to_nat (91 - Py.len (fst command)))))
          commands
   /\ Forall (fun command => Py.len (fst command) <= 91
                             /\ Py.len (packet_0_filler (fst command) 91) = 91) commands)
  /\ (Py.len (packet_0_filler packet 91) = 91
      /\ firstn (List.length packet) (packet_0_filler packet 91) = packet
      /\ skipn (List.length packet) (packet_0_filler packet 91)
         = repeat 0 (Z.to_nat (91 - Py.len packet))
      /\ Forall (fun b => b = 0) (skipn (List.length packet) (packet_0_filler packet 91))).
Proof.
  intros H. split; [split|].
  - apply init_device_bus.
  - unfold commands. repeat constructor; vm_compute; congruence.
  - split; [apply packet_0_filler_length; exact H|].
    split; [apply packet_0_filler_prefix|].
    split; [apply packet_0_filler_suffix|].
    rewrite packet_0_filler_suffix. apply Forall_forall.
    intros b Hb. apply repeat_spec in Hb. exact Hb.
Qed.

Lemma init_device_writes_padded_frames_witness :
  (init_device sample_guess_endpoint sample_bEndpointAddress
   = kernel_detach (InterfaceEndpoint.make 7 0)
     :: map (fun command =>
               write 0x04 (fst command ++ repeat 0 (Z.to_nat (91 - Py.len (fst command)))))
          commands
   /\ Forall (fun command => Py.len (fst command) <= 91
                             /\ Py.len (packet_0_filler (fst command) 91) = 91) commands)
  /\ (Py.len (packet_0_filler [0x06; 0xb0] 91) = 91
      /\ firstn 2 (packet_0_filler [0x06; 0xb0] 91) = [0x06; 0xb0]
      /\ skipn 2 (packet_0_filler [0x06; 0xb0] 91) = repeat 0 89
      /\ Forall (fun b => b = 0) (skipn 2 (packet_0_filler [0x06; 0xb0] 91))).
Proof.
  apply (init_device_writes_padded_frames sample_guess_endpoint sample_bEndpointAddress
           [0x06; 0xb0]).
  unfold Py.len; simpl; lia.
Defined.

(** ** Game and chat mix reports *)

Lemma forallb_Z_range (P : Z -> bool) (lo : Z) (n : nat) :
  forallb P (Z_range lo n) = true ->
  forall z, lo <= z < lo + Z.of_nat n -> P z = true.
Proof.
  intros H z Hz. rewrite forallb_forall in H. apply H.
  unfold Z_range. apply in_map_iff. exists (Z.to_nat (z - lo)). split; [lia|].
  apply in_seq. lia.
Qed.

(** A byte in 0-100 divided by 100 is a fraction in [0.0, 1.0]. *)
Lemma truediv_100_in_unit_interval (z : Z) :
  0 <= z <= 100 -> in_unit_interval (Py.truediv z 100) = true.
Proof.
  intros H.
  apply (forallb_Z_range (fun z => in_unit_interval (Py.truediv z 100)) 0 101);
    [vm_compute; reflexivity | lia].
Qed.

(** A byte in 101-255 divided by 100 is above 1.0. *)
Lemma truediv_100_above_one (z : Z) :
  100 < z <= 255 -> (1 <? Py.truediv z 100)%float = true.
Proof.
  intros H.
  apply (forallb_Z_range (fun z => (1 <? Py.truediv z 100)%float) 101 155);
    [vm_compute; reflexivity | lia].
Qed.

(** The test that guards a branch of the dispatcher, read as a statement
    about the report. *)
Lemma header_test (n : Z) (data : list Z) (a b : Z) :
  2 <= n ->
  (n <=? Py.len data) && (Py.item data 0 =? a) && (Py.item data 1 =? b) = true
  <-> leading data a b /\ n <= Py.len data.
Proof.
  intros Hn. rewrite !andb_true_iff, Z.leb_le, !Z.eqb_eq. unfold leading. split.
  - intros [[Hlen H0] H1]. split; [|exact Hlen].
    destruct data as [|x [|y rest]]; unfold Py.len in Hlen; simpl in Hlen; try lia.
    unfold Py.item in H0, H1. simpl in H0, H1. subst. exists rest. reflexivity.
  - intros [[rest ->] Hlen]. split; [split; [exact Hlen | reflexivity] | reflexivity].
Qed.

(** The mix branch of the dispatcher. *)
Lemma dispatch_mix (self : ArctisNovaProWirelessDevice) (data : list Z) :
  4 <= Py.len data -> Py.item data 0 = 0x07 -> Py.item data 1 = 0x45 ->
  dispatch self data monitored =
  {| returned := Py.Return None;
     self_after := {| game_mix := Some (Py.Float (Py.truediv (Py.item data 2) 100));
                      chat_mix := Some (Py.Float (Py.truediv (Py.item data 3) 100)) |};
     logged := [debug_text "Received volume control data."] |}.
Proof.
  intros Hlen H0 H1. unfold dispatch, monitored. simpl InterfaceEndpoint.eqb.
  rewrite H0, H1. simpl.
  destruct (4 <=? Py.len data) eqn:E; [|apply Z.leb_gt in E; lia].
  rewrite !andb_false_r. reflexivity.
Qed.

(** C4 fails as stated: a mix report with game byte 150 raises nothing; the
    call returns a state whose game mix is 1.5, above 1.0. *)
Lemma manage_input_data_mix_above_100_returns :
  returned (manage_input_data new_device mix_report_150 monitored)
  = Py.Return
      {| ChatMixState.game_volume := Py.Int 1;
         ChatMixState.chat_volume := Py.Int 1;
         ChatMixState.game_mix := Py.Float 1.5;
         ChatMixState.chat_mix := Py.Float 0.75;
         ChatMixState.device_status := None |}
  /\ (100 < Py.item mix_report_150 2)
  /\ (1 <? 1.5)%float = true.
Proof. vm_compute. repeat split. Qed.

(** C4, amended.  A report of at least 4 bytes that starts with
    [0x07, 0x45] makes [manage_input_data] store and return
    game mix = data[2]/100 and chat mix = data[3]/100, with both volumes 1
    (1.0 as a float) and no device status; each fraction lies in [0.0, 1.0]
    when its byte is in 0-100.  No byte value makes the call raise: a byte in
    101-255 yields byte/100 as it is, above 1.0. *)
Theorem manage_input_data_mix_report
  (self : ArctisNovaProWirelessDevice) (data : list Z) :
  4 <= Py.len data -> Py.item data 0 = 0x07 -> Py.item data 1 = 0x45 ->
  manage_input_data self data monitored
  = {| returned :=
         Py.Return
           {| ChatMixState.game_volume := Py.Int 1;
              ChatMixState.chat_volume := Py.Int 1;
              ChatMixState.game_mix := Py.Float (Py.truediv (Py.item data 2) 100);
              ChatMixState.chat_mix := Py.Float (Py.truediv (Py.item data 3) 100);
              ChatMixState.device_status := None |};
       self_after :=
         {| game_mix := Some (Py.Float (Py.truediv (Py.item data 2) 100));
            chat_mix := Some (Py.Float (Py.truediv (Py.item data 3) 100)) |};
       logged := [debug_text "Received volume control data."] |}
  /\ Py.as_float (Py.Int 1) = 1%float
  /\ (0 <= Py.item data 2 <= 100 ->
      in_unit_interval (Py.truediv (Py.item data 2) 100) = true)
  /\ (0 <= Py.item data 3 <= 100 ->
      in_unit_interval (Py.truediv (Py.item data 3) 100) = true)
  /\ (100 < Py.item data 2 <= 255 -> (1 <? Py.truediv (Py.item data 2) 100)%float = true)
  /\ (100 < Py.item data 3 <= 255 -> (1 <? Py.truediv (Py.item data 3) 100)%float = true).
Proof.
  intros Hlen H0 H1. split.
  - unfold manage_input_data. rewrite (dispatch_mix self data Hlen H0 H1). reflexivity.
  - split; [reflexivity|].
    repeat split; auto using truediv_100_in_unit_interval, truediv_100_above_one.
Qed.

Lemma manage_input_data_mix_report_witness :
  manage_input_data new_device mix_report monitored
  = {| returned :=
         Py.Return
           {| ChatMixState.game_volume := Py.Int 1;
              ChatMixState.chat_volume := Py.Int 1;
              ChatMixState.game_mix := Py.Float (Py.truediv 50 100);
              ChatMixState.chat_mix := Py.Float (Py.truediv 75 100);
              ChatMixState.device_status := None |};
       self_after :=
         {| game_mix := Some (Py.Float (Py.truediv 50 100));
            chat_mix := Some (Py.Float (Py.truediv 75 100)) |};
       logged := [debug_text "Received volume control data."] |}
  /\ Py.as_float (Py.Int 1) = 1%float
  /\ (0 <= 50 <= 100 -> in_unit_interval (Py.truediv 50 100) = true)
  /\ (0 <= 75 <= 100 -> in_unit_interval (Py.truediv 75 100) = true)
  /\ (100 < 50 <= 255 -> (1 <? Py.truediv 50 100)%float = true)
  /\ (100 < 75 <= 255 -> (1 <? Py.truediv 75 100)%float = true).
Proof.
  apply (manage_input_data_mix_report new_device mix_report).
  - unfold Py.len; simpl; lia.
  - reflexivity.
  - reflexivity.
Defined.

(** The first end-to-end scenario of the specification. *)
Example mix_report_scenario :
  returned (manage_input_data new_device mix_report monitored)
  = Py.Return
      {| ChatMixState.game_volume := Py.Int 1;
         ChatMixState.chat_volume := Py.Int 1;
         ChatMixState.game_mix := Py.Float 0.5;
         ChatMixState.chat_mix := Py.Float 0.75;
         ChatMixState.device_status := None |}.
Proof. vm_compute. reflexivity. Qed.

(** ** Decoding the scenario report *)

Lemma decode_device_status_status_report :
  decode_device_status status_report = Py.Return status_report_decoded.
Proof. vm_compute. reflexivity. Qed.

(** C5 fails as stated on two fields: offset 4 holds [0x01], which decodes to
    "on_off.off", not on; and offset 14 holds [0x04] while offset 13 holds
    [0x01], which decodes to "connection.connected", not
    "pairing.paired_offline". *)
Lemma status_report_power_and_pairing :
  option_map (fun s => meaning (bluetooth_power_status s))
    (decoded_status (manage_input_data new_device status_report monitored))
  = Some (label "on_off.off")
  /\ option_map (fun s => meaning (wireless_pairing s))
       (decoded_status (manage_input_data new_device status_report monitored))
     = Some (label "connection.connected")
  /\ label "on_off.off" <> label "on_off.on"
  /\ label "connection.connected" <> label "pairing.paired_offline".
Proof.
  split; [vm_compute; reflexivity|].
  split; [vm_compute; reflexivity|].
  split; discriminate.
Qed.

(** C5, amended.  The scenario report decodes to exactly
    [status_report_decoded]: bluetooth power-up off, auto-mute "-12db",
    bluetooth power off, bluetooth connected, both batteries 8.0, ANC level
    3.0, microphone unmuted, noise cancelling on, LED 5.0, auto-off 30,
    wireless mode range, pairing "connection.connected", headset power
    "connection.online"; the call stores nothing. *)
Theorem manage_input_data_status_report (self : ArctisNovaProWirelessDevice) :
  manage_input_data self status_report monitored
  = {| returned :=
         Py.Return
           {| ChatMixState.game_volume := Py.Int 1;
              ChatMixState.chat_volume := Py.Int 1;
              ChatMixState.game_mix := or_one (game_mix self);
              ChatMixState.chat_mix := or_one (chat_mix self);
              ChatMixState.device_status := Some status_report_decoded |};
       self_after := self;
       logged := [] |}.
Proof.
  unfold manage_input_data.
  rewrite (dispatch_status self status_report);
    [| unfold Py.len; simpl; lia | reflexivity | reflexivity].
  cbn [returned self_after logged].
  rewrite decode_device_status_status_report. reflexivity.
Qed.

(** ** Reports that change nothing *)

(** A report on the monitored endpoint that none of the three tests
    accepts falls through to the final [else]. *)
Lemma dispatch_unrecognized (self : ArctisNovaProWirelessDevice) (data : list Z) :
  ~ leading data 0x07 0x25 ->
  ~ (leading data 0x07 0x45 /\ 4 <= Py.len data) ->
  ~ (leading data 0x06 0xb0 /\ 16 <= Py.len data) ->
  dispatch self data monitored
  = {| returned := Py.Return None; self_after := self;
       logged := [debug_incoming 7 0 data] |}.
Proof.
  intros N1 N2 N3. unfold dispatch, monitored. simpl InterfaceEndpoint.eqb. cbv zeta.
  destruct ((2 <=? Py.len data) && (Py.item data 0 =? 0x07) && (Py.item data 1 =? 0x25)) eqn:E1.
  { apply header_test in E1; [|lia]. destruct E1 as [E1 _]. contradiction. }
  destruct ((4 <=? Py.len data) && (Py.item data 0 =? 0x07) && (Py.item data 1 =? 0x45)) eqn:E2.
  { apply header_test in E2; [|lia]. contradiction. }
  destruct ((16 <=? Py.len data) && (Py.item data 0 =? 0x06) && (Py.item data 1 =? 0xb0)) eqn:E3.
  { apply header_test in E3; [|lia]. contradiction. }
  reflexivity.
Qed.

(** C7.  A report on the monitored endpoint that matches none of the known
    patterns makes [manage_input_data] return normally: the stored game and
    chat mix are unchanged, the returned state has no device status, and its
    mix fractions are the stored ones, or 1 when none was ever stored. *)
Theorem manage_input_data_unrecognized_report
  (self : ArctisNovaProWirelessDevice) (data : list Z) :
  ~ leading data 0x07 0x25 ->
  ~ (leading data 0x07 0x45 /\ 4 <= Py.len data) ->
  ~ (leading data 0x06 0xb0 /\ 16 <= Py.len data) ->
  returned (manage_input_data self data monitored)
  = Py.Return
      {| ChatMixState.game_volume := Py.Int 1;
         ChatMixState.chat_volume := Py.Int 1;
         ChatMixState.game_mix := or_one (game_mix self);
         ChatMixState.chat_mix := or_one (chat_mix self);
         ChatMixState.device_status := None |}
  /\ self_after (manage_input_data self data monitored) = self
  /\ or_one None = Py.Int 1
  /\ Py.as_float (or_one None) = 1%float.
Proof.
  intros N1 N2 N3. unfold manage_input_data.
  rewrite (dispatch_unrecognized self data N1 N2 N3).
  repeat split.
Qed.

Lemma manage_input_data_unrecognized_report_witness :
  returned (manage_input_data mixed_device opaque_report monitored)
  = Py.Return
      {| ChatMixState.game_volume := Py.Int 1;
         ChatMixState.chat_volume := Py.Int 1;
         ChatMixState.game_mix := Py.Float 0.5;
         ChatMixState.chat_mix := Py.Float 0.75;
         ChatMixState.device_status := None |}
  /\ self_after (manage_input_data mixed_device opaque_report monitored) = mixed_device
  /\ or_one None = Py.Int 1
  /\ Py.as_float (or_one None) = 1%float.
Proof.
  apply (manage_input_data_unrecognized_report mixed_device opaque_report).
  - intros [rest H]. discriminate H.
  - intros [[rest H] _]. discriminate H.
  - intros [[rest H] _]. discriminate H.
Defined.

(** C9.  A report delivered with an endpoint other than interface 7,
    endpoint 0 leaves the stored game and chat mix unchanged and comes back
    with no device status, whatever its bytes are. *)
Theorem manage_input_data_other_endpoint
  (self : ArctisNovaProWirelessDevice) (data : list Z) (endpoint : InterfaceEndpoint.t) :
  endpoint <> InterfaceEndpoint.make 7 0 ->
  returned (manage_input_data self data endpoint)
  = Py.Return
      {| ChatMixState.game_volume := Py.Int 1;
         ChatMixState.chat_volume := Py.Int 1;
         ChatMixState.game_mix := or_one (game_mix self);
         ChatMixState.chat_mix := or_one (chat_mix self);
         ChatMixState.device_status := None |}
  /\ self_after (manage_input_data self data endpoint) = self.
Proof.
  intros H. unfold manage_input_data, dispatch.
  rewrite (InterfaceEndpoint_eqb_neq _ _ H). split; reflexivity.
Qed.

Lemma manage_input_data_other_endpoint_witness :
  returned (manage_input_data mixed_device status_report (InterfaceEndpoint.make 7 1))
  = Py.Return
      {| ChatMixState.game_volume := Py.Int 1;
         ChatMixState.chat_volume := Py.Int 1;
         ChatMixState.game_mix := Py.Float 0.5;
         ChatMixState.chat_mix := Py.Float 0.75;
         ChatMixState.device_status := None |}
  /\ self_after (manage_input_data mixed_device status_report (InterfaceEndpoint.make 7 1))
     = mixed_device.
Proof.
  apply (manage_input_data_other_endpoint mixed_device status_report
           (InterfaceEndpoint.make 7 1)).
  discriminate.
Defined.

(** ** Determinism of decoding *)

(** C8.  Decoding a valid status report (at least 16 bytes, leading
    [0x06, 0xb0], inactivity code in 0-6) yields one [DeviceStatus] fixed by
    the bytes alone: the same snapshot, raw and interpreted values alike,
    comes back from [decode_device_status], from an invocation in any mix
    state, and from a second invocation on the driver as the first left
    it. *)
Theorem status_decoding_deterministic
  (self : ArctisNovaProWirelessDevice) (data : list Z) :
  16 <= Py.len data -> Py.item data 0 = 0x06 -> Py.item data 1 = 0xb0 ->
  0 <= Py.item data 12 <= 6 ->
  exists s,
    decode_device_status data = Py.Return s
    /\ decoded_status (manage_input_data self data monitored) = Some s
    /\ decoded_status
         (manage_input_data (self_after (manage_input_data self data monitored)) data monitored)
       = Some s
    /\ forall self', decoded_status (manage_input_data self' data monitored) = Some s.
Proof.
  intros Hlen H0 H1 Hcode.
  destruct (decode_device_status_known_code data Hcode) as (s & Hs & _).
  assert (forall self', decoded_status (manage_input_data self' data monitored) = Some s) as Any.
  { intros self'. unfold decoded_status, manage_input_data.
    rewrite (dispatch_status self' data Hlen H0 H1).
    cbn [returned self_after logged]. rewrite Hs. reflexivity. }
  exists s. split; [exact Hs|]. split; [apply Any|]. split; [apply Any | exact Any].
Qed.

Lemma status_decoding_deterministic_witness :
  exists s,
    decode_device_status status_report = Py.Return s
    /\ decoded_status (manage_input_data mixed_device status_report monitored) = Some s
    /\ decoded_status
         (manage_input_data
            (self_after (manage_input_data mixed_device status_report monitored))
            status_report monitored)
       = Some s
    /\ forall self', decoded_status (manage_input_data self' status_report monitored) = Some s.
Proof.
  apply (status_decoding_deterministic mixed_device status_report).
  - unfold Py.len; simpl; lia.
  - reflexivity.
  - reflexivity.
  - unfold Py.item; simpl; lia.
Defined.

(** ** The settings catalog *)

(** C10.  The catalog of [get_configurable_settings] does not depend on the
    status it is given ([None] included): sections, setting kinds, bounds
    and current values are the same for any two statuses, hence for the
    same status asked twice; and the call leaves the driver as it was. *)
Theorem get_configurable_settings_ignores_state
  (self : ArctisNovaProWirelessDevice) (state1 state2 : option DeviceStatus) :
  get_configurable_settings self state1 = get_configurable_settings self state2
  /\ snd (get_configurable_settings self state1) = self
  /\ fst (get_configurable_settings (snd (get_configurable_settings self state1)) state1)
     = fst (get_configurable_settings self state1).
Proof. repeat split. Qed.

(** ** The dispatcher, branch by branch *)

(** Every call of the dispatcher takes exactly one of its five branches. *)
Lemma dispatch_cases (self : ArctisNovaProWirelessDevice) (data : list Z)
  (endpoint : InterfaceEndpoint.t) :
  (endpoint <> monitored
   /\ dispatch self data endpoint
      = {| returned := Py.Return None; self_after := self;
           logged := [debug_incoming (InterfaceEndpoint.interface endpoint)
                        (InterfaceEndpoint.endpoint endpoint) data] |})
  \/ (endpoint = monitored /\ leading data 0x07 0x25
      /\ dispatch self data endpoint
         = {| returned := Py.Return None; self_after := self; logged := [] |})
  \/ (is_mix_report data endpoint
      /\ dispatch self data endpoint
         = {| returned := Py.Return None;
              self_after :=
                {| game_mix := Some (Py.Float (Py.truediv (Py.item data 2) 100));
                   chat_mix := Some (Py.Float (Py.truediv (Py.item data 3) 100)) |};
              logged := [debug_text "Received volume control data."] |})
  \/ (is_status_report data endpoint
      /\ dispatch self data endpoint
         = {| returned := (s <- decode_device_status data ;; Py.Return (Some s));
              self_after := self; logged := [] |})
  \/ (endpoint = monitored
      /\ ~ is_mix_report data endpoint /\ ~ is_status_report data endpoint
      /\ dispatch self data endpoint
         = {| returned := Py.Return None; self_after := self;
              logged := [debug_incoming 7 0 data] |}).
Proof.
  unfold dispatch, is_mix_report, is_status_report. cbv zeta.
  destruct (InterfaceEndpoint.eqb endpoint (InterfaceEndpoint.make 7 0)) eqn:E.
  2:{ left. split; [|reflexivity]. intros ->. discriminate E. }
  apply InterfaceEndpoint_eqb_eq in E. subst endpoint. right.
  destruct ((2 <=? Py.len data) && (Py.item data 0 =? 0x07) && (Py.item data 1 =? 0x25)) eqn:E1.
  { left. apply header_test in E1; [|lia]. destruct E1 as [E1 _]. auto. }
  right.
  destruct ((4 <=? Py.len data) && (Py.item data 0 =? 0x07) && (Py.item data 1 =? 0x45)) eqn:E2.
  { left. apply header_test in E2; [|lia]. destruct E2. auto. }
  right.
  destruct ((16 <=? Py.len data) && (Py.item data 0 =? 0x06) && (Py.item data 1 =? 0xb0)) eqn:E3.
  { left. apply header_test in E3; [|lia]. destruct E3. auto. }
  right. split; [reflexivity|]. split; [|split; [|reflexivity]].
  - intros (_ & L & Hlen).
    assert ((4 <=? Py.len data) && (Py.item data 0 =? 0x07) && (Py.item data 1 =? 0x45) = true)
      as T by (apply header_test; [lia | auto]).
    congruence.
  - intros (_ & L & Hlen).
    assert ((16 <=? Py.len data) && (Py.item data 0 =? 0x06) && (Py.item data 1 =? 0xb0) = true)
      as T by (apply header_test; [lia | auto]).
    congruence.
Qed.

Lemma leading_unique (data : list Z) (a b a' b' : Z) :
  leading data a b -> leading data a' b' -> a = a' /\ b = b'.
Proof.
  intros [r ->] [r' H]. injection H as -> -> _. split; reflexivity.
Qed.

(** X1.  [manage_input_data] replaces the stored game and chat mix only on
    a mix report ([0x07, 0x45], at least 4 bytes) that arrives on interface
    7, endpoint 0; on every other call the driver comes back as it was. *)
Theorem manage_input_data_stores_only_on_mix_report
  (self : ArctisNovaProWirelessDevice) (data : list Z) (endpoint : InterfaceEndpoint.t) :
  self_after (manage_input_data self data endpoint) <> self ->
  is_mix_report data endpoint.
Proof.
  intros H. unfold manage_input_data in H. cbn [self_after] in H.
  destruct (dispatch_cases self data endpoint)
    as [(_ & D) | [(_ & _ & D) | [(M & _) | [(_ & D) | (_ & _ & _ & D)]]]];
    try exact M; rewrite D in H; cbn [self_after] in H; contradiction.
Qed.

Lemma manage_input_data_stores_only_on_mix_report_witness :
  is_mix_report mix_report monitored.
Proof.
  apply (manage_input_data_stores_only_on_mix_report new_device mix_report monitored).
  vm_compute. discriminate.
Defined.



(** X3.  The returned state carries a device status exactly when the report
    is a status report on interface 7, endpoint 0 that decodes, and the
    status is then the decoded one; in every other case its [device_status]
    is [None]. *)
Theorem manage_input_data_status_iff
  (self : ArctisNovaProWirelessDevice) (data : list Z) (endpoint : InterfaceEndpoint.t)
  (s : DeviceStatus) :
  decoded_status (manage_input_data self data endpoint) = Some s
  <-> is_status_report data endpoint /\ decode_device_status data = Py.Return s.
Proof.
  unfold decoded_status, manage_input_data. cbn [returned].
  destruct (dispatch_cases self data endpoint)
    as [(N & D) | [(-> & L & D) | [(M & D) | [(S & D) | (_ & _ & N & D)]]]];
    rewrite D; cbn [returned Py.bind ChatMixState.device_status].
  - split; [discriminate|]. intros [(E & _) _]. contradiction.
  - split; [discriminate|]. intros [(_ & L' & _) _].
    destruct (leading_unique _ _ _ _ _ L L') as [? _]. discriminate.
  - split; [discriminate|]. intros [(_ & L' & _) _].
    destruct M as (_ & L & _). destruct (leading_unique _ _ _ _ _ L L') as [? _]. discriminate.
  - destruct (decode_device_status data) as [s'|e]; cbn [Py.bind ChatMixState.device_status].
    + split.
      * intros H. injection H as ->. split; [exact S | reflexivity].
      * intros [_ H]. injection H as ->. reflexivity.
    + split; [discriminate|]. intros [_ H]. discriminate H.
  - split; [discriminate|]. intros [S _]. contradiction.
Qed.

(** ** Mix fractions across calls *)

(** Whatever a call returns carries the mix stored after that call. *)
Lemma manage_input_data_returns_stored_mix
  (self : ArctisNovaProWirelessDevice) (data : list Z) (endpoint : InterfaceEndpoint.t)
  (r : ChatMixState.t) :
  returned (manage_input_data self data endpoint) = Py.Return r ->
  ChatMixState.game_mix r = or_one (game_mix (self_after (manage_input_data self data endpoint)))
  /\ ChatMixState.chat_mix r = or_one (chat_mix (self_after (manage_input_data self data endpoint))).
Proof.
  unfold manage_input_data. cbn [returned self_after].
  destruct (returned (dispatch self data endpoint)) as [status|e]; cbn [Py.bind];
    [|discriminate].
  intros H. injection H as <-. split; reflexivity.
Qed.

(** A call that is not a mix report on the monitored endpoint keeps [self]. *)
Lemma manage_input_data_keeps_self
  (self : ArctisNovaProWirelessDevice) (data : list Z) (endpoint : InterfaceEndpoint.t) :
  ~ is_mix_report data endpoint ->
  self_after (manage_input_data self data endpoint) = self.
Proof.
  intros Hnot. unfold manage_input_data. cbn [self_after].
  destruct (dispatch_cases self data endpoint)
    as [(_ & D) | [(_ & _ & D) | [(M & _) | [(_ & D) | (_ & _ & _ & D)]]]];
    try contradiction; rewrite D; reflexivity.
Qed.

(** X4.  Last seen wins: once a mix report has been handled, every later
    call that is not itself a mix report on interface 7, endpoint 0 keeps
    the two stored fractions, and whatever state it returns carries exactly
    those fractions (byte 2 and byte 3 of the mix report, over 100). *)
Theorem mix_persists_until_next_mix_report
  (self : ArctisNovaProWirelessDevice) (mix data : list Z) (endpoint : InterfaceEndpoint.t) :
  is_mix_report mix monitored ->
  ~ is_mix_report data endpoint ->
  self_after
    (manage_input_data (self_after (manage_input_data self mix monitored)) data endpoint)
  = {| game_mix := Some (Py.Float (Py.truediv (Py.item mix 2) 100));
       chat_mix := Some (Py.Float (Py.truediv (Py.item mix 3) 100)) |}
  /\ forall r,
       returned
         (manage_input_data (self_after (manage_input_data self mix monitored)) data endpoint)
       = Py.Return r ->
       ChatMixState.game_mix r = Py.Float (Py.truediv (Py.item mix 2) 100)
       /\ ChatMixState.chat_mix r = Py.Float (Py.truediv (Py.item mix 3) 100).
Proof.
  intros (_ & [rest ->] & Hlen) Hnot.
  assert (self_after (manage_input_data self (0x07 :: 0x45 :: rest) monitored)
          = {| game_mix := Some (Py.Float (Py.truediv (Py.item (0x07 :: 0x45 :: rest) 2) 100));
               chat_mix := Some (Py.Float (Py.truediv (Py.item (0x07 :: 0x45 :: rest) 3) 100)) |})
    as First.
  { unfold manage_input_data. cbn [self_after].
    rewrite (dispatch_mix self (0x07 :: 0x45 :: rest) Hlen eq_refl eq_refl). reflexivity. }
  rewrite First.
  rewrite (manage_input_data_keeps_self _ data endpoint Hnot).
  split; [reflexivity|].
  intros r Hr.
  destruct (manage_input_data_returns_stored_mix _ data endpoint r Hr) as [G C].
  rewrite (manage_input_data_keeps_self _ data endpoint Hnot) in G, C.
  split; assumption.
Qed.

Lemma mix_persists_until_next_mix_report_witness :
  self_after
    (manage_input_data (self_after (manage_input_data new_device mix_report monitored))
       status_report monitored)
  = {| game_mix := Some (Py.Float (Py.truediv 50 100));
       chat_mix := Some (Py.Float (Py.truediv 75 100)) |}
  /\ forall r,
       returned
         (manage_input_data (self_after (manage_input_data new_device mix_report monitored))
            status_report monitored)
       = Py.Return r ->
       ChatMixState.game_mix r = Py.Float (Py.truediv 50 100)
       /\ ChatMixState.chat_mix r = Py.Float (Py.truediv 75 100).
Proof.
  apply (mix_persists_until_next_mix_report new_device mix_report status_report monitored).
  - split; [reflexivity|]. split; [exists [50; 75]; reflexivity | unfold Py.len; simpl; lia].
  - intros (_ & [rest H] & _). discriminate H.
Defined.

(** ** What a decoded status holds *)

Lemma item_window (data : list Z) :
  16 <= Py.len data -> map (Py.item data) (seq 2 14) = firstn 14 (skipn 2 data).
Proof.
  unfold Py.len. intros H.
  do 16 (destruct data as [|? data]; [simpl in H; lia|]).
  reflexivity.
Qed.

(** The fields of a decoded status, read off the report. *)
Lemma decode_device_status_fields (data : list Z) (s : DeviceStatus) :
  decode_device_status data = Py.Return s ->
  raw_values s = map (Py.item data) (seq 2 14)
  /\ meaning (headset_battery_charge s)
     = mapped (Py.Float (Py.round (Py.truediv (Py.item data 6) 8) 2))
  /\ meaning (charge_slot_battery_charge s)
     = mapped (Py.Float (Py.round (Py.truediv (Py.item data 7) 8) 2))
  /\ meaning (transparent_noise_cancelling_level s)
     = mapped (Py.Float (Py.round (Py.truediv (Py.item data 8) 10) 0))
  /\ meaning (mic_led_brightness s) = mapped (Py.Float (Py.truediv (Py.item data 11) 10))
  /\ exists minutes,
       getitem INACTIVE_TIME_MINUTES (Py.item data 12) = Py.Return minutes
       /\ meaning (auto_off_time_minutes s) = mapped (Py.Int minutes).
Proof.
  cbv beta zeta delta [decode_device_status DeviceStatusValue_mapped].
  destruct (getitem INACTIVE_TIME_MINUTES (Py.item data 12)) as [minutes|e];
    cbn [Py.bind]; [|discriminate].
  intros H. injection H as <-. cbn.
  repeat split. exists minutes. split; reflexivity.
Qed.

(** X5.  A decoded status keeps the report verbatim: for a report of at
    least 16 bytes, the raw values of its 14 fields, in field order, are
    bytes 2 to 15 of the report. *)
Theorem decoded_status_keeps_raw_bytes (data : list Z) (s : DeviceStatus) :
  16 <= Py.len data ->
  decode_device_status data = Py.Return s ->
  raw_values s = firstn 14 (skipn 2 data).
Proof.
  intros Hlen H. destruct (decode_device_status_fields data s H) as [R _].
  rewrite R. apply item_window. exact Hlen.
Qed.

Lemma decoded_status_keeps_raw_bytes_witness :
  raw_values status_report_decoded = firstn 14 (skipn 2 status_report).
Proof.
  apply (decoded_status_keeps_raw_bytes status_report status_report_decoded).
  - unfold Py.len; simpl; lia.
  - vm_compute. reflexivity.
Defined.

(** ** Numeric fields over the bytes *)

Lemma Forall_Z_range (P : Z -> Prop) (lo : Z) (n : nat) :
  Forall P (Z_range lo n) -> forall z, lo <= z < lo + Z.of_nat n -> P z.
Proof.
  intros H z Hz. rewrite Forall_forall in H. apply H.
  unfold Z_range. apply in_map_iff. exists (Z.to_nat (z - lo)). split; [lia|].
  apply in_seq. lia.
Qed.

(** On a byte, rounding [x / 10] to 0 decimals is the integer rounding of
    [x / 10], ties to even, converted to a float. *)
Lemma round_tenth_byte (x : Z) :
  0 <= x <= 255 ->
  Py.round (Py.truediv x 10) 0 = Py.float_of_int (Py.round_half_even x 10).
Proof.
  intros H.
  apply (Forall_Z_range
           (fun x => Py.round (Py.truediv x 10) 0 = Py.float_of_int (Py.round_half_even x 10))
           0 256); [|lia].
  unfold Z_range. cbn [seq map]. repeat (constructor; [vm_compute; reflexivity|]). constructor.
Qed.

Lemma round_half_even_cases (x d : Z) :
  0 < d ->
  exists q r,
    x = d * q + r /\ 0 <= r < d /\ q = x / d
    /\ ((2 * r < d /\ Py.round_half_even x d = q)
        \/ (2 * r > d /\ Py.round_half_even x d = q + 1)
        \/ (2 * r = d /\ (Py.round_half_even x d = q \/ Py.round_half_even x d = q + 1))).
Proof.
  intros Hd. exists (x / d), (x mod d).
  split; [apply Z.div_mod; lia|]. split; [apply Z.mod_pos_bound; exact Hd|].
  split; [reflexivity|]. unfold Py.round_half_even.
  destruct (2 * (x mod d) ?= d) eqn:C.
  - apply Z.compare_eq in C. right. right. split; [exact C|].
    destruct (Z.even (x / d)); [left | right]; reflexivity.
  - apply Z.compare_lt_iff in C. left. split; [exact C | reflexivity].
  - apply Z.compare_gt_iff in C. right. left. split; [lia | reflexivity].
Qed.

Lemma round_half_even_near (x d : Z) :
  0 < d -> - d <= 2 * (d * Py.round_half_even x d - x) <= d.
Proof.
  intros Hd.
  destruct (round_half_even_cases x d Hd) as (q & r & E & B & _ & C).
  destruct C as [[C ->] | [[C ->] | [C [-> | ->]]]]; nia.
Qed.

Lemma round_half_even_monotone (x y d : Z) :
  0 < d -> x <= y -> Py.round_half_even x d <= Py.round_half_even y d.
Proof.
  intros Hd Hxy.
  pose proof (Z.div_le_mono x y d Hd Hxy) as Q.
  destruct (round_half_even_cases x d Hd) as (q & r & E & B & Eq & C).
  destruct (round_half_even_cases y d Hd) as (q' & r' & E' & B' & Eq' & C').
  rewrite <- Eq, <- Eq' in Q.
  assert (q = q' \/ q + 1 <= q') as [Same | Less] by lia.
  - assert (r <= r') as R by nia.
    assert (x mod d = r) as Mx by (rewrite Z.mod_eq by lia; rewrite <- Eq; lia).
    assert (y mod d = r') as My by (rewrite Z.mod_eq by lia; rewrite <- Eq'; lia).
    unfold Py.round_half_even. cbv zeta. rewrite Mx, My, <- Eq, <- Eq', <- Same.
    destruct (Z.compare_spec (2 * r) d) as [Cx|Cx|Cx];
      destruct (Z.compare_spec (2 * r') d) as [Cy|Cy|Cy];
      try destruct (Z.even q); lia.
  - destruct C as [[_ ->] | [[_ ->] | [_ [-> | ->]]]];
      destruct C' as [[_ ->] | [[_ ->] | [_ [-> | ->]]]]; lia.
Qed.

(** X6.  For a report whose byte 8 is a byte, the decoded ANC level is an
    integer-valued float: the integer nearest to byte/10 (a tie such as 5,
    15 or 25 going to the even neighbour), between 0 and 26. *)
Theorem decoded_anc_level_is_integer (data : list Z) (s : DeviceStatus) :
  decode_device_status data = Py.Return s ->
  0 <= Py.item data 8 <= 255 ->
  exists level,
    meaning (transparent_noise_cancelling_level s) = mapped (Py.Float (Py.float_of_int level))
    /\ level = Py.round_half_even (Py.item data 8) 10
    /\ 0 <= level <= 26
    /\ - 5 <= 10 * level - Py.item data 8 <= 5.
Proof.
  intros H B.
  destruct (decode_device_status_fields data s H) as (_ & _ & _ & L & _).
  exists (Py.round_half_even (Py.item data 8) 10).
  rewrite L, (round_tenth_byte _ B).
  split; [reflexivity|]. split; [reflexivity|].
  pose proof (round_half_even_near (Py.item data 8) 10 ltac:(lia)).
  pose proof (round_half_even_monotone 0 (Py.item data 8) 10 ltac:(lia) ltac:(lia)) as Lo.
  pose proof (round_half_even_monotone (Py.item data 8) 255 10 ltac:(lia) ltac:(lia)) as Hi.
  change (Py.round_half_even 0 10) with 0 in Lo.
  change (Py.round_half_even 255 10) with 26 in Hi.
  lia.
Qed.

Lemma decoded_anc_level_is_integer_witness :
  exists level,
    meaning (transparent_noise_cancelling_level status_report_decoded)
    = mapped (Py.Float (Py.float_of_int level))
    /\ level = Py.round_half_even (Py.item status_report 8) 10
    /\ 0 <= level <= 26
    /\ - 5 <= 10 * level - Py.item status_report 8 <= 5.
Proof.
  apply (decoded_anc_level_is_integer status_report status_report_decoded).
  - vm_compute. reflexivity.
  - unfold Py.item; simpl; lia.
Defined.

Lemma all_pairs_nth {A : Type} (R : A -> A -> bool) (l : list A) (d : A) :
  all_pairs R l = true ->
  forall i j, (i <= j < List.length l)%nat -> R (nth i l d) (nth j l d) = true.
Proof.
  induction l as [|a l IH]; intros H i j Hij; simpl in Hij; [lia|].
  simpl in H. apply andb_true_iff in H as [H Hl]. apply andb_true_iff in H as [Haa Hal].
  destruct i as [|i], j as [|j]; simpl; try lia.
  - exact Haa.
  - rewrite forallb_forall in Hal. apply Hal. apply nth_In. lia.
  - apply IH; [exact Hl | lia].
Qed.

Lemma nth_Z_range (f : Z -> float) (n : nat) (i : nat) :
  (i < n)%nat ->
  nth i (map f (Z_range 0 n)) (f (0 + Z.of_nat 0)) = f (Z.of_nat i).
Proof.
  intros Hi. unfold Z_range.
  rewrite (map_nth f), (map_nth (fun i => 0 + Z.of_nat i)), seq_nth by exact Hi.
  reflexivity.
Qed.

(** On bytes, [round(x / 8, 2)] never decreases when [x] grows and stays in
    [0, 32). *)
Lemma round_eighth_monotone (x y : Z) :
  0 <= x -> x <= y -> y <= 255 ->
  ((0 <=? Py.round (Py.truediv x 8) 2)
   && (Py.round (Py.truediv x 8) 2 <=? Py.round (Py.truediv y 8) 2)
   && (Py.round (Py.truediv y 8) 2 <? 32))%float = true.
Proof.
  intros Hx Hxy Hy.
  pose (f := fun x => Py.round (Py.truediv x 8) 2).
  assert (all_pairs PrimFloat.leb (map f (Z_range 0 256)) = true) as Sorted
    by (vm_compute; reflexivity).
  assert (forall z, 0 <= z <= 255 -> ((0 <=? f z) && (f z <? 32))%float = true) as Bounds.
  { intros z Hz.
    apply (forallb_Z_range (fun z => ((0 <=? f z) && (f z <? 32))%float) 0 256);
      [vm_compute; reflexivity | lia]. }
  pose proof (all_pairs_nth PrimFloat.leb _ (f (0 + Z.of_nat 0)) Sorted
                (Z.to_nat x) (Z.to_nat y)) as Le.
  rewrite length_map in Le. unfold Z_range in Le at 1. rewrite length_map, length_seq in Le.
  rewrite !nth_Z_range in Le by lia. rewrite !Z2Nat.id in Le by lia.
  specialize (Le ltac:(lia)).
  pose proof (Bounds x ltac:(lia)) as Bx. pose proof (Bounds y ltac:(lia)) as By.
  apply andb_true_iff in Bx as [Bx _]. apply andb_true_iff in By as [_ By].
  fold (f x). fold (f y). rewrite Bx, Le, By. reflexivity.
Qed.

(** X7.  The decoded battery charge follows the raw byte: of two reports
    whose bytes 6 are bytes, the one with the larger byte never decodes to a
    smaller headset charge, and every charge lies in [0, 32). *)
Theorem decoded_battery_charge_monotone (data1 data2 : list Z) (s1 s2 : DeviceStatus) :
  decode_device_status data1 = Py.Return s1 ->
  decode_device_status data2 = Py.Return s2 ->
  0 <= Py.item data1 6 -> Py.item data1 6 <= Py.item data2 6 -> Py.item data2 6 <= 255 ->
  exists charge1 charge2,
    meaning (headset_battery_charge s1) = mapped (Py.Float charge1)
    /\ meaning (headset_battery_charge s2) = mapped (Py.Float charge2)
    /\ ((0 <=? charge1) && (charge1 <=? charge2) && (charge2 <? 32))%float = true.
Proof.
  intros H1 H2 Lo Le Hi.
  destruct (decode_device_status_fields data1 s1 H1) as (_ & B1 & _).
  destruct (decode_device_status_fields data2 s2 H2) as (_ & B2 & _).
  eexists. eexists. split; [exact B1|]. split; [exact B2|].
  apply round_eighth_monotone; assumption.
Qed.

Lemma decoded_battery_charge_monotone_witness :
  exists charge1 charge2,
    meaning (headset_battery_charge status_report_decoded) = mapped (Py.Float charge1)
    /\ meaning (headset_battery_charge status_report_decoded) = mapped (Py.Float charge2)
    /\ ((0 <=? charge1) && (charge1 <=? charge2) && (charge2 <? 32))%float = true.
Proof.
  apply (decoded_battery_charge_monotone status_report status_report
           status_report_decoded status_report_decoded).
  - vm_compute. reflexivity.
  - vm_compute. reflexivity.
  - unfold Py.item; simpl; lia.
  - unfold Py.item; simpl; lia.
  - unfold Py.item; simpl; lia.
Defined.

(** ** Padding *)

(** X8.  [packet_0_filler] never truncates, whatever the size asked for (even
    negative or smaller than the packet): the result starts with the whole
    packet, continues with zeros only, and is [max(len(packet), size)] long. *)
Theorem packet_0_filler_never_truncates (packet : list Z) (size : Z) :
  Py.len (packet_0_filler packet size) = Z.max (Py.len packet) size
  /\ firstn (List.length packet) (packet_0_filler packet size) = packet
  /\ Forall (fun b => b = 0) (skipn (List.length packet) (packet_0_filler packet size))
  /\ (size <= Py.len packet <-> packet_0_filler packet size = packet).
Proof.
  split; [|split; [|split]].
  - unfold packet_0_filler, Py.len. rewrite length_app, repeat_length. lia.
  - apply packet_0_filler_prefix.
  - rewrite packet_0_filler_suffix. apply Forall_forall.
    intros b Hb. apply repeat_spec in Hb. exact Hb.
  - unfold packet_0_filler. split.
    + intros H. replace (Z.to_nat (size - Py.len packet)) with 0%nat by lia.
      apply app_nil_r.
    + intros H. apply (f_equal (@List.length Z)) in H.
      rewrite length_app, repeat_length in H. unfold Py.len in *. lia.
Qed.

(** X9.  Zero bytes at the end of a command are indistinguishable from
    padding: a packet shorter than the frame and the same packet followed by
    a zero byte give the same frame.  So the status request [0x06, 0xb0] and
    the table entry [0x06, 0xb0, 0x00] are the same 91 bytes on the wire. *)
Theorem packet_0_filler_absorbs_trailing_zero (packet : list Z) (size : Z) :
  Py.len packet < size ->
  packet_0_filler (packet ++ [0]) size = packet_0_filler packet size.
Proof.
  unfold packet_0_filler, Py.len. intros H.
  rewrite length_app. cbn [List.length].
  replace (Z.to_nat (size - Z.of_nat (List.length packet)))
    with (S (Z.to_nat (size - Z.of_nat (List.length packet + 1)))) by lia.
  rewrite <- app_assoc. reflexivity.
Qed.

Lemma packet_0_filler_absorbs_trailing_zero_witness :
  packet_0_filler ([0x06; 0xb0] ++ [0]) 91 = packet_0_filler [0x06; 0xb0] 91.
Proof.
  apply (packet_0_filler_absorbs_trailing_zero [0x06; 0xb0] 91).
  unfold Py.len; simpl; lia.
Defined.

(** ** The catalog and the decoder *)

(** X10.  Whatever status it is given, [get_configurable_settings] offers
    sliders that are well formed: the current value lies between the
    minimum and the maximum, the step is positive and divides the range;
    and no two settings of the catalog share a name. *)
Theorem get_configurable_settings_sliders_in_bounds
  (self : ArctisNovaProWirelessDevice) (state : option DeviceStatus)
  (name : string) (min_value max_value step current_state : Z) :
  In (name, (min_value, max_value, step, current_state))
     (sliders (fst (get_configurable_settings self state))) ->
  min_value <= current_state <= max_value
  /\ 0 < step
  /\ (max_value - min_value) mod step = 0
  /\ NoDup (map setting_name (flat_map snd (fst (get_configurable_settings self state)))).
Proof.
  intros H. split; [|split; [|split]].
  - cbn in H. repeat (destruct H as [H|H]; [injection H as <- <- <- <- <-; lia|]).
    contradiction.
  - cbn in H. repeat (destruct H as [H|H]; [injection H as <- <- <- <- <-; lia|]).
    contradiction.
  - cbn in H. repeat (destruct H as [H|H]; [injection H as <- <- <- <- <-; reflexivity|]).
    contradiction.
  - cbn. repeat (constructor; [cbn; intuition discriminate|]). constructor.
Qed.

Lemma get_configurable_settings_sliders_in_bounds_witness :
  0x01 <= 0x10 <= 0x10
  /\ 0 < 1
  /\ (0x10 - 0x01) mod 1 = 0
  /\ NoDup (map setting_name (flat_map snd (fst (get_configurable_settings new_device None)))).
Proof.
  apply (get_configurable_settings_sliders_in_bounds new_device None "mic_volume").
  cbn. left. reflexivity.
Defined.

(** X11.  The values the "pm_shutdown" slider can take are exactly the
    inactivity codes the status decoder accepts: a value lies between the
    slider's minimum and maximum if and only if [INACTIVE_TIME_MINUTES] has
    it as a key. *)
Theorem pm_shutdown_slider_matches_inactivity_codes
  (self : ArctisNovaProWirelessDevice) (state : option DeviceStatus)
  (min_value max_value step current_state v : Z) :
  In ("pm_shutdown", (min_value, max_value, step, current_state))
     (sliders (fst (get_configurable_settings self state))) ->
  (min_value <= v <= max_value
   <-> exists minutes, getitem INACTIVE_TIME_MINUTES v = Py.Return minutes).
Proof.
  intros H. cbn in H.
  repeat (destruct H as [H|H]; [try discriminate H|]); try contradiction.
  injection H as <- <- _ _. split.
  - apply getitem_INACTIVE_TIME_MINUTES_known.
  - intros [minutes Hm].
    destruct (Z_le_dec 0 v) as [L|L]; [destruct (Z_le_dec v 6) as [U|U]; [lia|]|];
      rewrite getitem_INACTIVE_TIME_MINUTES_unknown in Hm by lia; discriminate Hm.
Qed.

Lemma pm_shutdown_slider_matches_inactivity_codes_witness :
  0x00 <= 5 <= 0x06 <-> exists minutes, getitem INACTIVE_TIME_MINUTES 5 = Py.Return minutes.
Proof.
  apply (pm_shutdown_slider_matches_inactivity_codes new_device None 0x00 0x06 1 0x04 5).
  cbn. do 3 right. left. reflexivity.
Defined.

(** ** Dictionaries *)

Section DictFacts.

Context {V : Type}.

Lemma dict_lookup_setitem_same (d : list (string * V)) (key : string) (value : V) :
  dict_lookup (dict_setitem d key value) key = Some value.
Proof.
  induction d as [|[k v] d IH]; simpl.
  - rewrite String.eqb_refl. reflexivity.
  - destruct (String.eqb k key) eqn:E; simpl; rewrite E; [reflexivity | exact IH].
Qed.

Lemma dict_lookup_setitem_other (d : list (string * V)) (key key' : string) (value : V) :
  key <> key' ->
  dict_lookup (dict_setitem d key value) key' = dict_lookup d key'.
Proof.
  intros N. induction d as [|[k v] d IH]; simpl.
  - destruct (String.eqb_spec key key'); [contradiction | reflexivity].
  - destruct (String.eqb_spec k key) as [->|Nk]; simpl.
    + destruct (String.eqb_spec key key'); [contradiction | reflexivity].
    + destruct (String.eqb k key'); [reflexivity | exact IH].
Qed.

Lemma dict_setitem_setitem_same (d : list (string * V)) (key : string) (v1 v2 : V) :
  dict_setitem (dict_setitem d key v1) key v2 = dict_setitem d key v2.
Proof.
  induction d as [|[k v] d IH]; simpl.
  - rewrite String.eqb_refl. reflexivity.
  - destruct (String.eqb k key) eqn:E; simpl; rewrite E; [reflexivity|].
    rewrite IH. reflexivity.
Qed.

End DictFacts.

(** ** File names of the device configurations *)

Example device_file_nova_pro_wireless :
  ConfigManager.device_file 0x1038 0x12e0 = "device_1038_12e0.json".
Proof. reflexivity. Qed.

Lemma Raw_of_pos_hex_digits (p : positive) :
  forall rest,
    all_hex_digits rest = true -> all_hex_digits (HexString.Raw.of_pos p rest) = true.
Proof.
  revert p. fix IH 1. intros p rest H.
  do 4 try destruct p as [p|p|]; cbn [HexString.Raw.of_pos];
    try (apply IH); cbn; exact H.
Qed.

(** The digits of a non-negative number: hexadecimal digits only, and the
    number can be read back from them. *)
Lemma hex_digits_nonnegative (x : Z) :
  0 <= x ->
  all_hex_digits (slice_from 2 (hex x)) = true
  /\ HexString.to_Z (String "0" (String "x" (slice_from 2 (hex x)))) = x.
Proof.
  intros H. destruct x as [|p|p]; [split; reflexivity | | lia].
  unfold hex, HexString.of_Z, HexString.of_pos. cbn [slice_from]. split.
  - apply Raw_of_pos_hex_digits. reflexivity.
  - apply (HexString.to_Z_of_Z (Z.pos p)).
Qed.

Lemma hex_digits_injective (x y : Z) :
  0 <= x -> 0 <= y -> slice_from 2 (hex x) = slice_from 2 (hex y) -> x = y.
Proof.
  intros Hx Hy E.
  destruct (hex_digits_nonnegative x Hx) as [_ Rx].
  destruct (hex_digits_nonnegative y Hy) as [_ Ry].
  rewrite <- Rx, <- Ry, E. reflexivity.
Qed.

(** Two runs of hexadecimal digits, each followed by a character that is
    not one, agree as soon as the whole texts agree. *)
Lemma hex_run_unique (a a' : string) (c : ascii) (rest rest' : string) :
  all_hex_digits a = true -> all_hex_digits a' = true -> is_hex_digit c = false ->
  (a ++ String c rest)%string = (a' ++ String c rest')%string ->
  a = a' /\ rest = rest'.
Proof.
  intros Ha Ha' Hc. revert a' Ha'.
  induction a as [|x a IH]; intros [|x' a'] Ha' E; simpl in *.
  - injection E as ->. split; reflexivity.
  - injection E as -> _. apply andb_true_iff in Ha' as [Hx _]. congruence.
  - injection E as -> _. apply andb_true_iff in Ha as [Hx _]. congruence.
  - injection E as -> E. apply andb_true_iff in Ha as [_ Ha].
    apply andb_true_iff in Ha' as [_ Ha'].
    destruct (IH Ha a' Ha' E) as [-> ->]. split; reflexivity.
Qed.

(** The file name determines both ids. *)
Lemma device_file_determines_ids (vendor_id product_id vendor_id' product_id' : Z) :
  0 <= vendor_id -> 0 <= product_id -> 0 <= vendor_id' -> 0 <= product_id' ->
  ConfigManager.device_file vendor_id product_id
  = ConfigManager.device_file vendor_id' product_id' ->
  vendor_id = vendor_id' /\ product_id = product_id'.
Proof.
  intros Hv Hp Hv' Hp' E. unfold ConfigManager.device_file in E.
  destruct (hex_digits_nonnegative vendor_id Hv) as [Dv _].
  destruct (hex_digits_nonnegative product_id Hp) as [Dp _].
  destruct (hex_digits_nonnegative vendor_id' Hv') as [Dv' _].
  destruct (hex_digits_nonnegative product_id' Hp') as [Dp' _].
  cbn [String.append] in E. injection E as E.
  change ("_" ++ ?t)%string with (String "_" t) in E.
  cbn [String.append] in E.
  destruct (hex_run_unique _ _ "_" _ _ Dv Dv' eq_refl E) as [Ev E'].
  change (".json")%string with (String "." "json") in E'.
  destruct (hex_run_unique _ _ "." _ _ Dp Dp' eq_refl E') as [Ep _].
  split; apply hex_digits_injective; assumption.
Qed.

(** X12.  Device configurations never share a file: for non-negative
    vendor and product ids, two devices get the same file name only if both
    ids are equal. *)
Theorem device_file_injective (vendor_id product_id vendor_id' product_id' : Z) :
  0 <= vendor_id -> 0 <= product_id -> 0 <= vendor_id' -> 0 <= product_id' ->
  ConfigManager.device_file vendor_id product_id
  = ConfigManager.device_file vendor_id' product_id' ->
  vendor_id = vendor_id' /\ product_id = product_id'.
Proof.
  intros Hv Hp Hv' Hp' E.
  exact (device_file_determines_ids _ _ _ _ Hv Hp Hv' Hp' E).
Qed.

Lemma device_file_injective_witness :
  0x1038 = 0x1038 /\ 0x12e0 = 0x12e0.
Proof.
  apply (device_file_injective 0x1038 0x12e0 0x1038 0x12e0); try lia.
  reflexivity.
Defined.

(** ** Saving and loading configurations *)

Lemma device_file_not_general (vendor_id product_id : Z) :
  ConfigManager.device_file vendor_id product_id <> ConfigManager.general_file.
Proof.
  unfold ConfigManager.device_file, ConfigManager.general_file.
  cbn [String.append]. discriminate.
Qed.

Lemma get_general_config_save (files : ConfigManager.directory) (c : ConfigManager.config) :
  ConfigManager.get_general_config (ConfigManager.save_general_config files c) = c.
Proof.
  unfold ConfigManager.get_general_config, ConfigManager.save_general_config.
  rewrite dict_lookup_setitem_same. reflexivity.
Qed.

Lemma get_device_config_save_general (files : ConfigManager.directory)
  (c : ConfigManager.config) (vendor_id product_id : Z) :
  ConfigManager.get_device_config (ConfigManager.save_general_config files c)
    vendor_id product_id
  = ConfigManager.get_device_config files vendor_id product_id.
Proof.
  unfold ConfigManager.get_device_config, ConfigManager.save_general_config.
  apply dict_lookup_setitem_other. intros E. symmetry in E.
  exact (device_file_not_general _ _ E).
Qed.

(** X13.  A saved device configuration is what [get_device_config] then
    returns for that device, and saving it changes neither the configuration
    of any other device (ids non-negative) nor the general configuration. *)
Theorem save_device_config_round_trip
  (files : ConfigManager.directory) (c : ConfigManager.config)
  (vendor_id product_id vendor_id' product_id' : Z) :
  0 <= vendor_id -> 0 <= product_id -> 0 <= vendor_id' -> 0 <= product_id' ->
  (vendor_id', product_id') <> (vendor_id, product_id) ->
  ConfigManager.get_device_config
    (ConfigManager.save_device_config files vendor_id product_id c) vendor_id product_id
  = Some c
  /\ ConfigManager.get_device_config
       (ConfigManager.save_device_config files vendor_id product_id c) vendor_id' product_id'
     = ConfigManager.get_device_config files vendor_id' product_id'
  /\ ConfigManager.get_general_config
       (ConfigManager.save_device_config files vendor_id product_id c)
     = ConfigManager.get_general_config files.
Proof.
  intros Hv Hp Hv' Hp' N.
  unfold ConfigManager.get_device_config, ConfigManager.save_device_config,
    ConfigManager.get_general_config.
  split; [apply dict_lookup_setitem_same|]. split.
  - apply dict_lookup_setitem_other. intros E.
    destruct (device_file_determines_ids _ _ _ _ Hv Hp Hv' Hp' E) as [-> ->].
    apply N. reflexivity.
  - rewrite dict_lookup_setitem_other by apply device_file_not_general. reflexivity.
Qed.

Lemma save_device_config_round_trip_witness :
  ConfigManager.get_device_config
    (ConfigManager.save_device_config [] 0x1038 0x12e0 [("gain", Json.integer 2)])
    0x1038 0x12e0
  = Some [("gain", Json.integer 2)]
  /\ ConfigManager.get_device_config
       (ConfigManager.save_device_config [] 0x1038 0x12e0 [("gain", Json.integer 2)])
       0x1038 0x12e3
     = ConfigManager.get_device_config [] 0x1038 0x12e3
  /\ ConfigManager.get_general_config
       (ConfigManager.save_device_config [] 0x1038 0x12e0 [("gain", Json.integer 2)])
     = ConfigManager.get_general_config [].
Proof.
  apply (save_device_config_round_trip [] [("gain", Json.integer 2)]
           0x1038 0x12e0 0x1038 0x12e3); try lia.
  discriminate.
Defined.

(** ** The general settings callbacks *)

(** Setting one key of the general configuration and writing it back. *)
Lemma general_setitem_reads_back (files : ConfigManager.directory)
  (key key' : string) (value : Json.value) (vendor_id product_id : Z) :
  let files' :=
    ConfigManager.save_general_config files
      (dict_setitem (ConfigManager.get_general_config files) key value) in
  dict_lookup (ConfigManager.get_general_config files') key = Some value
  /\ (key' <> key ->
      dict_lookup (ConfigManager.get_general_config files') key'
      = dict_lookup (ConfigManager.get_general_config files) key')
  /\ ConfigManager.get_device_config files' vendor_id product_id
     = ConfigManager.get_device_config files vendor_id product_id.
Proof.
  cbv zeta. rewrite get_general_config_save, get_device_config_save_general.
  split; [apply dict_lookup_setitem_same|]. split; [|reflexivity].
  intros N. apply dict_lookup_setitem_other. congruence.
Qed.

(** X14.  After [on_device_switch_changed enabled], the value the settings
    window reads for the switch ([get('device_switch', True)]) is [enabled];
    every other key of the general configuration and every device
    configuration is as before.  This holds also when [general.json] did not
    exist yet. *)
Theorem on_device_switch_changed_reads_back
  (files : ConfigManager.directory) (enabled : bool) (key : string)
  (vendor_id product_id : Z) :
  key <> "device_switch" ->
  dict_get (ConfigManager.get_general_config
              (SettingsWindow.on_device_switch_changed files enabled))
    "device_switch" (Json.boolean true)
  = Json.boolean enabled
  /\ dict_lookup (ConfigManager.get_general_config
                   (SettingsWindow.on_device_switch_changed files enabled)) key
     = dict_lookup (ConfigManager.get_general_config files) key
  /\ ConfigManager.get_device_config
       (SettingsWindow.on_device_switch_changed files enabled) vendor_id product_id
     = ConfigManager.get_device_config files vendor_id product_id.
Proof.
  intros N. unfold SettingsWindow.on_device_switch_changed, dict_get. cbv zeta.
  destruct (general_setitem_reads_back files "device_switch" key (Json.boolean enabled)
              vendor_id product_id) as (Same & Other & Device).
  cbv zeta in Same, Other, Device. rewrite Same. split; [reflexivity|].
  split; [apply Other; exact N | exact Device].
Qed.

Lemma on_device_switch_changed_reads_back_witness :
  dict_get (ConfigManager.get_general_config
              (SettingsWindow.on_device_switch_changed [] false))
    "device_switch" (Json.boolean true)
  = Json.boolean false
  /\ dict_lookup (ConfigManager.get_general_config
                   (SettingsWindow.on_device_switch_changed [] false)) "fallback_device"
     = dict_lookup (ConfigManager.get_general_config []) "fallback_device"
  /\ ConfigManager.get_device_config
       (SettingsWindow.on_device_switch_changed [] false) 0x1038 0x12e0
     = ConfigManager.get_device_config [] 0x1038 0x12e0.
Proof.
  apply (on_device_switch_changed_reads_back [] false "fallback_device" 0x1038 0x12e0).
  discriminate.
Defined.

(** X15.  The three callbacks write three different keys, so the order in
    which the user changes the device switch, the smart switch and the
    fallback device does not matter: every key of the general configuration
    reads the same afterwards. *)
Theorem general_settings_callbacks_commute
  (files : ConfigManager.directory) (switch smart : bool) (device : PactlDevice.t)
  (key : string) :
  dict_lookup
    (ConfigManager.get_general_config
       (SettingsWindow.on_fallback_device_changed
          (SettingsWindow.on_smart_device_switch_changed
             (SettingsWindow.on_device_switch_changed files switch) smart) device)) key
  = dict_lookup
      (ConfigManager.get_general_config
         (SettingsWindow.on_device_switch_changed
            (SettingsWindow.on_smart_device_switch_changed
               (SettingsWindow.on_fallback_device_changed files device) smart) switch)) key.
Proof.
  unfold SettingsWindow.on_fallback_device_changed,
    SettingsWindow.on_smart_device_switch_changed,
    SettingsWindow.on_device_switch_changed.
  cbv zeta. rewrite !get_general_config_save.
  set (c := ConfigManager.get_general_config files).
  destruct (String.eqb_spec key "device_switch") as [->|N1].
  { rewrite dict_lookup_setitem_same.
    rewrite !dict_lookup_setitem_other by discriminate.
    rewrite dict_lookup_setitem_same. reflexivity. }
  destruct (String.eqb_spec key "smart_device_switch") as [->|N2].
  { rewrite (dict_lookup_setitem_other _ "fallback_device") by discriminate.
    rewrite dict_lookup_setitem_same.
    rewrite (dict_lookup_setitem_other _ "device_switch") by discriminate.
    rewrite dict_lookup_setitem_same. reflexivity. }
  destruct (String.eqb_spec key "fallback_device") as [->|N3].
  { rewrite dict_lookup_setitem_same.
    rewrite !(dict_lookup_setitem_other _ _ "fallback_device") by discriminate.
    rewrite dict_lookup_setitem_same. reflexivity. }
  rewrite !dict_lookup_setitem_other by congruence. reflexivity.
Qed.

(** X16.  The last change wins and leaves no trace of the earlier one:
    changing the device switch twice gives exactly the files that the second
    change alone gives. *)
Theorem on_device_switch_changed_last_wins
  (files : ConfigManager.directory) (first second : bool) :
  SettingsWindow.on_device_switch_changed
    (SettingsWindow.on_device_switch_changed files first) second
  = SettingsWindow.on_device_switch_changed files second.
Proof.
  unfold SettingsWindow.on_device_switch_changed. cbv zeta.
  rewrite get_general_config_save.
  unfold ConfigManager.save_general_config.
  rewrite !dict_setitem_setitem_same. reflexivity.
Qed.

(** ** Splitting and stripping the sink lines *)

Lemma split_length (s : string) :
  List.length (Pactl.split s) = S (Pactl.colons s).
Proof.
  induction s as [|c s IH]; simpl; [reflexivity|].
  destruct (Ascii.eqb c Pactl.colon); simpl; [rewrite IH; reflexivity|].
  destruct (Pactl.split s) as [|part parts]; simpl in *; [discriminate IH | exact IH].
Qed.

Lemma split_no_colon (s : string) :
  Pactl.colons s = 0%nat -> Pactl.split s = [s].
Proof.
  induction s as [|c s IH]; simpl; [reflexivity|].
  destruct (Ascii.eqb c Pactl.colon); [discriminate|].
  intros H. rewrite (IH H). reflexivity.
Qed.

Lemma split_app_colon (a b : string) :
  Pactl.colons a = 0%nat ->
  Pactl.split (a ++ String Pactl.colon b) = a :: Pactl.split b.
Proof.
  induction a as [|c a IH]; simpl; [reflexivity|].
  destruct (Ascii.eqb c Pactl.colon); [discriminate|].
  intros H. rewrite (IH H). reflexivity.
Qed.

Lemma colons_app (a b : string) :
  Pactl.colons (a ++ b) = (Pactl.colons a + Pactl.colons b)%nat.
Proof.
  induction a as [|c a IH]; simpl; [reflexivity|].
  destruct (Ascii.eqb c Pactl.colon); rewrite IH; reflexivity.
Qed.

Lemma lstrip_length (s : string) :
  (String.length (Pactl.lstrip s) <= String.length s)%nat.
Proof.
  induction s as [|c s IH]; simpl; [lia|].
  destruct (Pactl.is_stripped c); simpl; lia.
Qed.

Lemma rstrip_length (s : string) :
  (String.length (Pactl.rstrip s) <= String.length s)%nat.
Proof.
  induction s as [|c s IH]; simpl; [lia|].
  destruct (Pactl.rstrip s) as [|c' r]; [destruct (Pactl.is_stripped c)|]; simpl in *; lia.
Qed.

Lemma lstrip_fixed_head (c : ascii) (s : string) :
  Pactl.lstrip (String c s) = String c s -> Pactl.is_stripped c = false.
Proof.
  simpl. destruct (Pactl.is_stripped c); [|reflexivity].
  intros H. pose proof (lstrip_length s) as L. rewrite H in L. simpl in L. lia.
Qed.





Lemma strip_fixed (s : string) :
  Pactl.strip s = s -> Pactl.lstrip s = s /\ Pactl.rstrip s = s.
Proof.
  unfold Pactl.strip. intros H.
  assert (Pactl.lstrip s = s) as L.
  { destruct s as [|c s]; [reflexivity|]. simpl in *.
    destruct (Pactl.is_stripped c); [|reflexivity].
    pose proof (rstrip_length (Pactl.lstrip s)) as R. pose proof (lstrip_length s) as L.
    rewrite H in R. simpl in R. lia. }
  split; [exact L|]. rewrite L in H. exact H.
Qed.

Lemma lstrip_app_stripped (pre s : string) :
  Pactl.all_stripped pre = true -> Pactl.lstrip (pre ++ s) = Pactl.lstrip s.
Proof.
  induction pre as [|c pre IH]; simpl; [reflexivity|].
  intros H. apply andb_true_iff in H as [Hc H]. rewrite Hc. apply IH. exact H.
Qed.

Lemma lstrip_all_stripped (post : string) :
  Pactl.all_stripped post = true -> Pactl.lstrip post = EmptyString.
Proof.
  induction post as [|c post IH]; simpl; [reflexivity|].
  intros H. apply andb_true_iff in H as [Hc H]. rewrite Hc. apply IH. exact H.
Qed.

Lemma rstrip_all_stripped (post : string) :
  Pactl.all_stripped post = true -> Pactl.rstrip post = EmptyString.
Proof.
  induction post as [|c post IH]; simpl; [reflexivity|].
  intros H. apply andb_true_iff in H as [Hc H]. rewrite (IH H), Hc. reflexivity.
Qed.

Lemma rstrip_app_stripped (s post : string) :
  Pactl.all_stripped post = true -> Pactl.rstrip (s ++ post) = Pactl.rstrip s.
Proof.
  intros H. induction s as [|c s IH]; simpl; [apply rstrip_all_stripped; exact H|].
  rewrite IH. reflexivity.
Qed.

(** A text with nothing to strip at its ends comes back unchanged from
    between two runs of stripped characters. *)
Lemma strip_wrapped (pre post s : string) :
  Pactl.all_stripped pre = true -> Pactl.all_stripped post = true ->
  Pactl.strip s = s ->
  Pactl.strip (pre ++ s ++ post) = s.
Proof.
  intros Hpre Hpost H. destruct (strip_fixed s H) as [L R].
  unfold Pactl.strip. rewrite (lstrip_app_stripped pre _ Hpre).
  destruct s as [|c s].
  - simpl. rewrite (lstrip_all_stripped post Hpost). reflexivity.
  - pose proof (lstrip_fixed_head c s L) as Hc.
    change (String c s ++ post)%string with (String c (s ++ post)).
    simpl Pactl.lstrip. rewrite Hc.
    change (String c (s ++ post)) with (String c s ++ post)%string.
    rewrite (rstrip_app_stripped _ post Hpost). exact R.
Qed.

(** The line of a sink splits at its single colon. *)
Lemma split_sink_line (name description : string) :
  Pactl.colons name = 0%nat -> Pactl.colons description = 0%nat ->
  Pactl.split (Pactl.sink_line name description)
  = [ (String "034" EmptyString ++ name ++ String "034" " ")%string;
      (String " " (String "034" EmptyString) ++ description
       ++ String "034" (String "010" EmptyString))%string ].
Proof.
  intros Hn Hd. unfold Pactl.sink_line.
  change (String "034" name ++ String "034" " : " ++ String "034" description
          ++ String "034" (String "010" EmptyString))%string
    with (String "034" (name ++ String "034" (String " " (String Pactl.colon
           (String " " (String "034" (description
              ++ String "034" (String "010" EmptyString)))))))).
  assert (String "034" (name ++ String "034" (String " " (String Pactl.colon
            (String " " (String "034" (description
               ++ String "034" (String "010" EmptyString)))))))
          = ((String "034" EmptyString ++ name ++ String "034" " ")
             ++ String Pactl.colon
                  (String " " (String "034" EmptyString) ++ description
                   ++ String "034" (String "010" EmptyString)))%string) as E.
  { simpl. f_equal. induction name as [|c name IH]; simpl; [reflexivity|].
    rewrite IH; [reflexivity|]. simpl in Hn. destruct (Ascii.eqb c Pactl.colon);
      [discriminate | exact Hn]. }
  rewrite E. rewrite split_app_colon.
  - rewrite split_no_colon; [reflexivity|].
    simpl. rewrite colons_app, Hd. reflexivity.
  - simpl. rewrite colons_app, Hn. reflexivity.
Qed.

(** ** Parsing the sinks *)

Lemma unpack_cons (line : string) (lines : list (list string)) :
  Pactl.unpack (Pactl.split line :: lines)
  = if Nat.eqb (Pactl.colons line) 1
    then match Pactl.split line, Pactl.unpack lines with
         | [name; description], Pactl.Return devices =>
             Pactl.Return
               (PactlDevice.make (Pactl.strip name) (Pactl.strip description) :: devices)
         | _, _ => Pactl.ValueError
         end
    else Pactl.ValueError.
Proof.
  pose proof (split_length line) as L.
  destruct (Pactl.split line) as [|a [|b [|c parts]]]; simpl in L;
    try discriminate L; injection L as L; rewrite <- L; reflexivity.
Qed.

(** X17.  [pactl_get_available_sinks] raises [ValueError] exactly when some
    line of the command output does not contain exactly one colon: a sink
    whose description contains a colon, or a line without any, makes the
    whole call fail. *)
Theorem pactl_get_available_sinks_raises_iff (raw_result : list string) :
  Pactl.pactl_get_available_sinks raw_result = Pactl.ValueError
  <-> Exists (fun line => Pactl.colons line <> 1%nat) raw_result.
Proof.
  unfold Pactl.pactl_get_available_sinks.
  induction raw_result as [|line raw IH]; cbn [map].
  - simpl. split; [discriminate|]. intros H. inversion H.
  - rewrite unpack_cons. rewrite Exists_cons.
    destruct (Nat.eqb_spec (Pactl.colons line) 1) as [One|NotOne].
    + pose proof (split_length line) as L. rewrite One in L.
      destruct (Pactl.split line) as [|a [|b [|c parts]]]; simpl in L; try discriminate L.
      destruct (Pactl.unpack (map Pactl.split raw)) as [devices|].
      * split; [discriminate|]. intros [H|H]; [contradiction|].
        apply IH in H. discriminate H.
      * split; [|reflexivity]. intros _. right. apply IH. reflexivity.
    + split; [|reflexivity]. intros _. left. exact NotOne.
Qed.



(** X19.  Round trip with the awk script: from the lines it prints for a
    list of sinks, the call recovers exactly those sinks, names and
    descriptions without their quotes, provided no name or description
    contains a colon or has a space, a double quote or a newline at either
    end. *)
Theorem pactl_get_available_sinks_sink_lines (devices : list PactlDevice.t) :
  Forall (fun device =>
            Pactl.colons (PactlDevice.name device) = 0%nat
            /\ Pactl.colons (PactlDevice.description device) = 0%nat
            /\ Pactl.strip (PactlDevice.name device) = PactlDevice.name device
            /\ Pactl.strip (PactlDevice.description device) = PactlDevice.description device)
         devices ->
  Pactl.pactl_get_available_sinks
    (map (fun device =>
            Pactl.sink_line (PactlDevice.name device) (PactlDevice.description device))
       devices)
  = Pactl.Return devices.
Proof.
  unfold Pactl.pactl_get_available_sinks.
  induction 1 as [|[name description] devices (Cn & Cd & Sn & Sd) _ IH]; cbn [map];
    [reflexivity|].
  cbn [PactlDevice.name PactlDevice.description] in *.
  rewrite (split_sink_line name description Cn Cd). cbn [Pactl.unpack]. rewrite IH.
  rewrite (strip_wrapped (String "034" EmptyString) (String "034" " ") name
             eq_refl eq_refl Sn).
  rewrite (strip_wrapped (String " " (String "034" EmptyString))
             (String "034" (String "010" EmptyString)) description eq_refl eq_refl Sd).
  reflexivity.
Qed.

Lemma pactl_get_available_sinks_sink_lines_witness :
  Pactl.pactl_get_available_sinks
    (map (fun device =>
            Pactl.sink_line (PactlDevice.name device) (PactlDevice.description device))
       [PactlDevice.make "alsa_output.usb" "Built-in Audio"])
  = Pactl.Return [PactlDevice.make "alsa_output.usb" "Built-in Audio"].
Proof.
  apply (pactl_get_available_sinks_sink_lines
           [PactlDevice.make "alsa_output.usb" "Built-in Audio"]).
  repeat constructor.
Defined.

(** ** The default fallback device *)

Example arctis_match_samples :
  SettingsWindow.arctis_match "SteelSeries Arctis Nova Pro Wireless Game" = true
  /\ SettingsWindow.arctis_match "arctis chat" = true
  /\ SettingsWindow.arctis_match "Built-in Audio Analog Stereo" = false
  /\ SettingsWindow.arctis_match "ARCTIS" = false.
Proof. repeat split. Qed.

Lemma fallback_devices_nil (sinks : list PactlDevice.t) :
  SettingsWindow.fallback_devices sinks = []
  <-> Forall (fun device =>
                SettingsWindow.arctis_match (PactlDevice.description device) = true) sinks.
Proof.
  unfold SettingsWindow.fallback_devices.
  induction sinks as [|device sinks IH]; simpl.
  - split; [constructor | reflexivity].
  - destruct (SettingsWindow.arctis_match (PactlDevice.description device)) eqn:E; simpl.
    + rewrite IH. split; [constructor; assumption|]. intros H. inversion H. assumption.
    + split; [discriminate|]. intros H. inversion H. congruence.
Qed.

(** X20.  Opening the general settings fails with [IndexError] exactly when
    no fallback device is configured (the key is missing or null) and every
    available sink is an Arctis sink, the empty list of sinks included. *)
Theorem setup_fallback_device_raises_iff
  (files : ConfigManager.directory) (sinks : list PactlDevice.t) :
  SettingsWindow.setup_fallback_device files sinks = SettingsWindow.IndexError
  <-> dict_get (ConfigManager.get_general_config files) "fallback_device" Json.null
      = Json.null
      /\ Forall (fun device =>
                   SettingsWindow.arctis_match (PactlDevice.description device) = true)
                sinks.
Proof.
  unfold SettingsWindow.setup_fallback_device. cbv zeta.
  rewrite <- fallback_devices_nil.
  destruct (dict_get (ConfigManager.get_general_config files) "fallback_device" Json.null);
    try (split; [discriminate | intros [H _]; discriminate H]).
  destruct (SettingsWindow.fallback_devices sinks) as [|device devices].
  - split; [split; reflexivity | reflexivity].
  - split; [discriminate | intros [_ H]; discriminate H].
Qed.


